(** * Converting measurement data into the Acoular HDF5 layout

    A shallow embedding of the notebook
    [_notebooks/2022-06-24-convert-input-data.ipynb].  The notebook is a
    sequence of calls into Python, NumPy, SciPy and PyTables; every
    definition below names the call it stands for.  Files live in an
    explicit [world] (the disk and the table of open PyTables handles) that
    is threaded through the calls; a raised Python exception ends the cell
    and leaves the world as the failing call left it. *)

From Stdlib Require Import ZArith Ascii String Lia.
From Stdlib.Floats Require Import SpecFloat.
From stdpp Require Import base option list strings gmap.

Local Open Scope Z_scope.
Local Open Scope string_scope.
Local Open Scope list_scope.
Local Open Scope nat_scope.

(** ** Python exceptions *)

(** The exception classes the modelled calls can raise.  [UnsupportedFormat]
    is no Python class: it is the error kind of the conversion driver. *)
Inductive exn : Type :=
  | ValueError
  | KeyError
  | AttributeError
  | IndexError
  | TypeError
  | NotImplementedError
  | OSError
  | FileExistsError
  | UnicodeDecodeError
  | HDF5ExtError
  | NoSuchNodeError
  | NodeError
  | FileModeError
  | ClosedFileError
  | MatReadError
  | UnsupportedFormat.

Global Instance exn_eq_dec : EqDecision exn.
Proof. solve_decision. Defined.

(** ** IEEE 754 values

    Both float formats of the notebook are values of [spec_float]; the dtype
    of an array says which format its elements are rounded to. *)

Abbreviation float := spec_float.

Definition round64 (x : float) : float :=
  match x with
  | S754_finite s m e => binary_round 53 1024 s m e
  | _ => x
  end.

(** Conversion to IEEE single precision, round to nearest even. *)
Definition round32 (x : float) : float :=
  match x with
  | S754_finite s m e => binary_round 24 128 s m e
  | _ => x
  end.

(** The double nearest to the integer [z]: the value of a literal such as
    [51200.0]. *)
Definition float_of_Z (z : Z) : float := binary_normalize 53 1024 z 0 false.

(** ** Python built-ins *)

Module py.

Definition ord (c : ascii) : nat := nat_of_ascii c.

(** The white space [float(s)] removes around the number.  A character is
    a code point below 256: the ASCII white space is the tab, the four line
    controls 10 to 13 and the space (the separators 28 to 31 are not
    removed); outside ASCII, [float] first turns the Unicode spaces, here
    NEL (133) and the no-break space (160), into spaces. *)
Definition isspace (c : ascii) : bool :=
  let n := ord c in
  (Nat.leb 9 n && Nat.leb n 13) || Nat.eqb n 32
  || Nat.eqb n 133 || Nat.eqb n 160.

Definition isdigit (c : ascii) : bool :=
  let n := ord c in Nat.leb 48 n && Nat.leb n 57.

Definition digit_value (c : ascii) : Z := Z.of_nat (ord c - 48).

Definition lower (c : ascii) : ascii :=
  let n := ord c in
  if Nat.leb 65 n && Nat.leb n 90 then ascii_of_nat (n + 32) else c.

Fixpoint lstrip (drop : ascii → bool) (s : list ascii) : list ascii :=
  match s with
  | c :: s' => if drop c then lstrip drop s' else s
  | [] => []
  end.

Definition rstrip (drop : ascii → bool) (s : list ascii) : list ascii :=
  rev (lstrip drop (rev s)).

(** [s.strip(chars)], with [chars] given as a predicate. *)
Definition strip (drop : ascii → bool) (s : list ascii) : list ascii :=
  rstrip drop (lstrip drop s).

(** [s.split(sep)] for a one-character separator: never an empty list. *)
Fixpoint split (sep : ascii) (s : list ascii) : list (list ascii) :=
  match s with
  | [] => [[]]
  | c :: s' =>
      if Ascii.eqb c sep then [] :: split sep s'
      else match split sep s' with
           | piece :: pieces => (c :: piece) :: pieces
           | [] => [[c]]
           end
  end.

(** *** [float(s)] *)

(** digitpart ::= digit (["_"] digit)* ; [after_us] records that the
    previous character was an underscore already known to be followed by a
    digit.  Returns the digits read and the unread input. *)
Fixpoint digitpart_tail (after_us : bool) (s : list ascii)
  : list Z * list ascii :=
  match s with
  | c :: s' =>
      if isdigit c then
        let '(ds, r) := digitpart_tail false s' in (digit_value c :: ds, r)
      else if Ascii.eqb c "_" && negb after_us then
        match s' with
        | d :: _ =>
            if isdigit d then
              match digitpart_tail true s' with
              | ([], _) => ([], s)
              | ok => ok
              end
            else ([], s)
        | [] => ([], s)
        end
      else ([], s)
  | [] => ([], [])
  end.

(** A digitpart may not start with an underscore. *)
Definition digitpart (s : list ascii) : list Z * list ascii :=
  match s with
  | c :: _ => if isdigit c then digitpart_tail false s else ([], s)
  | [] => ([], [])
  end.

Definition decimal (ds : list Z) : Z :=
  fold_left (λ acc d, (10 * acc + d)%Z) ds 0%Z.

(** exponent ::= ("e" | "E") ["+" | "-"] digitpart ; [None] when the text
    after the number is not an exponent. *)
Definition exponent (s : list ascii) : option Z :=
  match s with
  | [] => Some 0%Z
  | c :: s' =>
      if Ascii.eqb (lower c) "e" then
        let '(neg, s'') :=
          match s' with
          | "-"%char :: r => (true, r)
          | "+"%char :: r => (false, r)
          | _ => (false, s')
          end in
        match digitpart s'' with
        | ([], _) => None
        | (ds, []) => Some (if neg then - decimal ds else decimal ds)%Z
        | (_, _ :: _) => None
        end
      else None
  end.

(** The double nearest to [m * 10^e10], with the sign [neg]. *)
Definition scale10 (neg : bool) (m e10 : Z) : float :=
  match m with
  | Zpos p =>
      match e10 with
      | Zneg q =>
          SFdiv 53 1024 (S754_finite neg p 0)
                (S754_finite false (Pos.pow 10 q) 0)
      | _ => binary_normalize 53 1024 (cond_Zopp neg (m * 10 ^ e10)) 0 neg
      end
  | _ => S754_zero neg
  end.

(** floatnumber ::= ([digitpart] "." digitpart | digitpart ["."]) [exponent] *)
Definition floatnumber (neg : bool) (s : list ascii) : option float :=
  let '(ip, r) := digitpart s in
  let '(fp, rest) :=
    match r with
    | "."%char :: r1 => digitpart r1
    | _ => ([], r)
    end in
  match ip ++ fp with
  | [] => None
  | ds =>
      match exponent rest with
      | Some e => Some (scale10 neg (decimal ds) (e - Z.of_nat (length fp)))
      | None => None
      end
  end.

(** [float(s)] on text of code points below 256: surrounding white space
    is dropped, then a sign and a number, [inf], [infinity] or [nan] (in
    any case) must make up the whole text.  [None] stands for
    [ValueError]. *)
Definition float_ (s : string) : option float :=
  let t := strip isspace (list_ascii_of_string s) in
  let '(neg, body) :=
    match t with
    | "-"%char :: r => (true, r)
    | "+"%char :: r => (false, r)
    | _ => (false, t)
    end in
  let name := string_of_list_ascii (map lower body) in
  if bool_decide (name = "inf") || bool_decide (name = "infinity")
  then Some (S754_infinity neg)
  else if bool_decide (name = "nan") then Some S754_nan
  else floatnumber neg body.

End py.

(** Outcome of a call: a value, or a raised exception. *)
Inductive result (A : Type) : Type :=
  | Ok (a : A)
  | Raise (e : exn).
Arguments Ok {A} a.
Arguments Raise {A} e.

Definition is_ok {A} (r : result A) : bool :=
  match r with Ok _ => true | Raise _ => false end.

(** ** NumPy *)

Module np.

Inductive dtype : Type := float32 | float64.

Global Instance dtype_eq_dec : EqDecision dtype.
Proof. solve_decision. Defined.

(** Conversion of one element to the array's dtype. *)
Definition cast (dt : dtype) (x : float) : float :=
  match dt with
  | float32 => round32 x
  | float64 => round64 x
  end.

(** An array is a view on a buffer: element [(i0, i1, ...)] sits at
    position [i0 * strides[0] + i1 * strides[1] + ...] (strides counted in
    elements). *)
Record ndarray : Type := mk_ndarray {
  dtype_of : dtype;
  shape : list nat;
  strides : list nat;
  data : list float
}.

Definition ndim (a : ndarray) : nat := length (shape a).

Definition prod (l : list nat) : nat := foldr Nat.mul 1 l.

Definition size (a : ndarray) : nat := prod (shape a).

(** Reading the buffer.  Arrays built by the calls below never read
    past their buffer; such a read would yield NaN here. *)
Definition item (buf : list float) (off : nat) : float :=
  default S754_nan (buf !! off).

Fixpoint offset (st idx : list nat) : nat :=
  match st, idx with
  | s :: st', i :: idx' => i * s + offset st' idx'
  | _, _ => 0
  end.

Fixpoint in_bounds (sh idx : list nat) : bool :=
  match sh, idx with
  | [], [] => true
  | n :: sh', i :: idx' => Nat.ltb i n && in_bounds sh' idx'
  | _, _ => false
  end.

(** [a[i0, i1, ...]] with one index per axis; [None] is [IndexError]. *)
Definition getitem (a : ndarray) (idx : list nat) : option float :=
  if in_bounds (shape a) idx
  then Some (item (data a) (offset (strides a) idx))
  else None.

(** The elements in C (row-major) order of the indices, whatever the
    strides are. *)
Fixpoint flat_from (sh st : list nat) (off : nat) (buf : list float)
  : list float :=
  match sh with
  | [] => [item buf off]
  | n :: sh' =>
      flat_map (λ i, flat_from sh' (tail st) (off + i * hd 0 st) buf)
               (seq 0 n)
  end.

Definition ravel (a : ndarray) : list float :=
  flat_from (shape a) (strides a) 0 (data a).

(** Strides of a freshly allocated C-contiguous array. *)
Fixpoint c_strides (sh : list nat) : list nat :=
  match sh with
  | [] => []
  | _ :: sh' => prod sh' :: c_strides sh'
  end.

(** [np.array(a, dtype=dt)]: a fresh copy with every element converted.
    (The copy is laid out in C order here; its layout cannot be seen
    through indexing.) *)
Definition array (a : ndarray) (dt : dtype) : ndarray :=
  {| dtype_of := dt;
     shape := shape a;
     strides := c_strides (shape a);
     data := map (cast dt) (ravel a) |}.

(** [a.T]: the same buffer seen with the axes reversed. *)
Definition T (a : ndarray) : ndarray :=
  {| dtype_of := dtype_of a;
     shape := rev (shape a);
     strides := rev (strides a);
     data := data a |}.

Fixpoint drop_unit_axes (sh st : list nat) : list nat * list nat :=
  match sh with
  | [] => ([], [])
  | n :: sh' =>
      let '(sh'', st'') := drop_unit_axes sh' (tail st) in
      if Nat.eqb n 1 then (sh'', st'') else (n :: sh'', hd 0 st :: st'')
  end.

(** [np.squeeze(a)]: the axes of length one are removed. *)
Definition squeeze (a : ndarray) : ndarray :=
  let '(sh, st) := drop_unit_axes (shape a) (strides a) in
  {| dtype_of := dtype_of a; shape := sh; strides := st; data := data a |}.

(** [np.array(rows, dt)] for a list of equally long tuples of Python
    floats. *)
Definition array_of_rows (rows : list (list float)) (dt : dtype) : ndarray :=
  match rows with
  | [] => {| dtype_of := dt; shape := [0]; strides := [1]; data := [] |}
  | r :: _ =>
      {| dtype_of := dt;
         shape := [length rows; length r];
         strides := [length r; 1];
         data := map (cast dt) (concat rows) |}
  end.

(** *** [np.genfromtxt(fname, delimiter=',', dtype='float32')] *)

(** Text mode with universal newlines: "\r\n" and "\r" are read as "\n". *)
Fixpoint universal_newlines (s : list ascii) : list ascii :=
  match s with
  | [] => []
  | c :: s' =>
      if Ascii.eqb c "013" then
        "010"%char ::
          match s' with
          | d :: s'' =>
              if Ascii.eqb d "010" then universal_newlines s''
              else universal_newlines s'
          | [] => []
          end
      else c :: universal_newlines s'
  end.

(** The lines of the file in order, without their terminators. *)
Definition readlines (text : list ascii) : list (list ascii) :=
  let pieces := py.split "010" (universal_newlines text) in
  match last pieces with
  | Some [] => removelast pieces
  | _ => pieces
  end.

Definition line_junk (c : ascii) : bool :=
  Ascii.eqb c " " || Ascii.eqb c "013" || Ascii.eqb c "010".

(** [LineSplitter._delimited_splitter]: chop off the comment, strip
    [" \r\n"], split at the delimiter; a blank line has no fields. *)
Definition split_line (line : list ascii) : list (list ascii) :=
  let line := hd [] (py.split "#" line) in
  let line := py.strip line_junk line in
  match line with
  | [] => []
  | _ => py.split "," line
  end.

(** [while not first_values: first_line = next(fhd); ...]: skip the
    leading blank lines; [None] when the input has no data line. *)
Fixpoint first_valid (fhd : list (list ascii))
  : option (list ascii * list (list ascii)) :=
  match fhd with
  | [] => None
  | line :: fhd' =>
      match split_line line with
      | [] => first_valid fhd'
      | _ => Some (line, fhd')
      end
  end.

(** The main loop over [itertools.chain([first_line], fhd)]: blank lines
    are skipped, a line with a field count other than [nbcols] has its
    number recorded in [invalid], every other line is a row. *)
Fixpoint scan (nbcols i : nat) (lines : list (list ascii))
  : list (list (list ascii)) * list nat :=
  match lines with
  | [] => ([], [])
  | line :: lines' =>
      let values := split_line line in
      let nbvalues := length values in
      let '(rows, invalid) := scan nbcols (S i) lines' in
      if Nat.eqb nbvalues 0 then (rows, invalid)
      else if negb (Nat.eqb nbvalues nbcols) then (rows, (i + 1) :: invalid)
      else (values :: rows, invalid)
  end.

(** [StringConverter._loose_call] for a float column: [float(value)], and
    the default [nan] when that raises [ValueError]. *)
Definition loose_call (value : list ascii) : float :=
  default S754_nan (py.float_ (string_of_list_ascii value)).

(** The rows the call collects from the decoded content of the file,
    every field converted.  With [invalid_raise=True] (the default)
    recorded invalid lines raise [ValueError]; a file without data lines
    gives no rows (and a warning). *)
Definition genfromtxt_rows (text : string) : result (list (list float)) :=
  let fhd := readlines (list_ascii_of_string text) in
  match first_valid fhd with
  | None => Ok []
  | Some (first_line, fhd') =>
      let nbcols := length (split_line first_line) in
      let '(rows, invalid) := scan nbcols 0 (first_line :: fhd') in
      match invalid with
      | _ :: _ => Raise ValueError
      | [] => Ok (map (map loose_call) rows)
      end
  end.

(** The whole call: [np.squeeze(np.array(rows, dtype))]. *)
Definition genfromtxt_str (text : string) : result ndarray :=
  match genfromtxt_rows text with
  | Ok rows => Ok (squeeze (array_of_rows rows float32))
  | Raise e => Raise e
  end.

End np.

(** ** The disk and the open files *)

(** Value of an HDF5 attribute. *)
Inductive attr_value : Type :=
  | AttrStr (s : string)
  | AttrInt (z : Z)
  | AttrFloat (x : float).

(** A dataset of an HDF5 file: its element type, its shape, its elements
    in row-major order and its attributes. *)
Record Leaf : Type := mk_Leaf {
  atom : np.dtype;
  leaf_shape : list nat;
  leaf_data : list float;
  v_attrs : gmap string attr_value
}.

(** An HDF5 file: whether it starts with the header block of a MATLAB 7.3
    MAT file (HDF5 allows such a user block in front of its own data), the
    attributes of the root group and its children. *)
Record h5 : Type := mk_h5 {
  matlab_header : bool;
  root_attrs : gmap string attr_value;
  root : gmap string Leaf
}.

(** What a path of the disk holds: decoded text, the variables of a MAT
    file of version 7 or older, or an HDF5 container (PyTables files and
    MAT files from version 7.3 on). *)
Inductive file : Type :=
  | TextFile (content : string)
  | MatFile (variables : gmap string np.ndarray)
  | HDF5File (f : h5).

(** The two modes the notebook opens files in, ['r'] and ['w']. *)
Inductive mode : Type := mode_r | mode_w.

(** A [tables.File] object. *)
Record File : Type := mk_File {
  filename : string;
  file_mode : mode
}.

Global Instance mode_eq_dec : EqDecision mode.
Proof. solve_decision. Defined.

Global Instance File_eq_dec : EqDecision File.
Proof. solve_decision. Defined.

Record world : Type := mk_world {
  disk : gmap string file;
  open_files : list File
}.

(** A call: it reads and changes the world and returns or raises. *)
Definition M (A : Type) : Type := world → result A * world.

Global Instance M_ret : MRet M := λ A a st, (Ok a, st).

Global Instance M_bind : MBind M := λ A B k m st,
  match m st with
  | (Ok a, st') => k a st'
  | (Raise e, st') => (Raise e, st')
  end.

Definition raise {A} (e : exn) : M A := λ st, (Raise e, st).

Definition lift {A} (x : result A) : M A := λ st, (x, st).

Definition get_disk : M (gmap string file) := λ st, (Ok (disk st), st).

Definition put_file (path : string) (f : file) : M unit := λ st,
  (Ok (), {| disk := <[path := f]> (disk st); open_files := open_files st |}).

(** Some handle of [handles] is a handle on the file [path]. *)
Definition is_held_open (path : string) (handles : list File) : bool :=
  bool_decide (path ∈ (filename <$> handles)).

(** The process holds [path] open: it opened the file and has not closed
    it since. *)
Definition held_open (path : string) (st : world) : Prop :=
  path ∈ (filename <$> open_files st).

Global Instance held_open_dec path st : Decision (held_open path st).
Proof. unfold held_open. apply _. Defined.

(** ** [scipy.io.loadmat] *)

Module scipy_io.

(** What the version check at the start of [loadmat] raises on a file of
    [n] bytes of plain text (no zero byte, no control character that could
    pass for a version number): it reads bytes 0 to 3, then bytes 124 to
    127, needs the third of the latter and finds no known version. *)
Definition text_header_error (n : nat) : exn :=
  if Nat.eqb n 0 then MatReadError
  else if Nat.ltb n 4 then TypeError
  else if Nat.ltb n 127 then IndexError
  else ValueError.

(** The dictionary of the variables of a MAT file.  A version 7.3 file,
    known by its header, is refused: it has to be read as HDF5.  Any other
    HDF5 file is of no known MAT version. *)
Definition loadmat (file_name : string) : M (gmap string np.ndarray) :=
  d ← get_disk;
  match d !! file_name with
  | None => raise OSError
  | Some (MatFile variables) => mret variables
  | Some (HDF5File f) =>
      if matlab_header f then raise NotImplementedError else raise ValueError
  | Some (TextFile content) => raise (text_header_error (String.length content))
  end.

(** [d[key]] on a Python dictionary. *)
Definition getitem {A} (d : gmap string A) (key : string) : M A :=
  match d !! key with
  | Some v => mret v
  | None => raise KeyError
  end.

End scipy_io.

(** ** PyTables *)

Module tables.

(** Attributes PyTables itself puts on the root group of a new file. *)
Definition new_root_attrs (title : string) : gmap string attr_value :=
  <["CLASS" := AttrStr "GROUP"]>
  (<["PYTABLES_FORMAT_VERSION" := AttrStr "2.1"]>
  (<["TITLE" := AttrStr title]>
  (<["VERSION" := AttrStr "1.0"]> ∅))).

Definition new_file (title : string) : h5 :=
  {| matlab_header := false; root_attrs := new_root_attrs title; root := ∅ |}.

Definition register (h : File) : M unit := λ st,
  (Ok (), {| disk := disk st; open_files := h :: open_files st |}).

Fixpoint forget (h : File) (hs : list File) : list File :=
  match hs with
  | [] => []
  | h' :: hs' => if decide (h = h') then hs' else h' :: forget h hs'
  end.

(** PyTables' registry of the files this process has opened and not yet
    closed. *)
Definition get_open_files : M (list File) := λ st, (Ok (open_files st), st).

(** [tables.open_file(filename, mode, title)].  Mode ['r'] needs an
    existing HDF5 file.  Mode ['w'] first asks the registry: a file this
    process still holds open is refused with [ValueError] and is not
    touched; otherwise a new file is created, which deletes a file that
    was there under this name.  What the operating system may object to
    (permissions, a missing directory) is outside the model. *)
Definition open_file (filename : string) (mode : mode) (title : string)
  : M File :=
  let h := {| filename := filename; file_mode := mode |} in
  match mode with
  | mode_r =>
      d ← get_disk;
      match d !! filename with
      | None => raise OSError
      | Some (HDF5File _) => _ ← register h; mret h
      | Some _ => raise HDF5ExtError
      end
  | mode_w =>
      handles ← get_open_files;
      if is_held_open filename handles then raise ValueError
      else
        _ ← put_file filename (HDF5File (new_file title));
        _ ← register h;
        mret h
  end.

(** [File.close()]: flushes and releases the handle; closing twice is
    harmless. *)
Definition close (h : File) : M unit := λ st,
  (Ok (), {| disk := disk st; open_files := forget h (open_files st) |}).

(** The content of the file behind an open handle. *)
Definition contents (h : File) : M h5 := λ st,
  if bool_decide (h ∈ open_files st) then
    match disk st !! filename h with
    | Some (HDF5File f) => (Ok f, st)
    | _ => (Raise HDF5ExtError, st)
    end
  else (Raise ClosedFileError, st).

Definition check_writable (h : File) : M unit :=
  match file_mode h with
  | mode_w => mret ()
  | mode_r => raise FileModeError
  end.

(** [h5file.root.<name>] *)
Definition get_node (h : File) (name : string) : M Leaf :=
  f ← contents h;
  match root f !! name with
  | Some leaf => mret leaf
  | None => raise NoSuchNodeError
  end.

Definition put_node (h : File) (name : string) (leaf : Leaf) : M unit :=
  f ← contents h;
  put_file (filename h)
    (HDF5File {| matlab_header := matlab_header f;
                 root_attrs := root_attrs f;
                 root := <[name := leaf]> (root f) |}).

(** [leaf[:, :]]: two slices need two axes; the whole dataset is read. *)
Definition read_slice2 (leaf : Leaf) : result np.ndarray :=
  if Nat.ltb (length (leaf_shape leaf)) 2 then Raise IndexError
  else Ok {| np.dtype_of := atom leaf;
             np.shape := leaf_shape leaf;
             np.strides := np.c_strides (leaf_shape leaf);
             np.data := leaf_data leaf |}.

(** Attributes PyTables itself puts on a new [EArray]. *)
Definition earray_sys_attrs (extdim : nat) : gmap string attr_value :=
  <["CLASS" := AttrStr "EARRAY"]>
  (<["EXTDIM" := AttrInt (Z.of_nat extdim)]>
  (<["TITLE" := AttrStr ""]>
  (<["VERSION" := AttrStr "1.1"]> ∅))).

Definition zerodims (sh : list nat) : nat :=
  length (filter (λ n, n = 0) sh).

(** [EArray.append(obj)] on the still empty array [leaf], enlargeable
    along axis 0: the ranks must agree (the other dimensions agree by
    construction of the shape); nothing is written for an empty [obj]. *)
Definition append (h : File) (name : string) (leaf : Leaf)
           (obj : np.ndarray) : M unit :=
  if negb (Nat.eqb (length (leaf_shape leaf)) (np.ndim obj))
  then raise ValueError
  else if Nat.ltb 0 (np.size obj) then
    put_node h name
      {| atom := atom leaf;
         leaf_shape := hd 0 (np.shape obj) :: tail (leaf_shape leaf);
         leaf_data := np.ravel obj;
         v_attrs := v_attrs leaf |}
  else mret ().

(** [File.create_earray('/', name, obj=obj)]: the shape of the new array
    is that of [obj] with the first dimension set to 0, its atom the dtype
    of [obj]; exactly one dimension may be 0; [obj] is then appended. *)
Definition create_earray (h : File) (name : string) (obj : np.ndarray)
  : M unit :=
  f ← contents h;
  _ ← check_writable h;
  let earray_shape := 0 :: tail (np.shape obj) in
  if bool_decide (is_Some (root f !! name)) then raise NodeError
  else if negb (Nat.eqb (zerodims earray_shape) 1)
  then raise NotImplementedError
  else
    let leaf := {| atom := np.dtype_of obj;
                   leaf_shape := earray_shape;
                   leaf_data := [];
                   v_attrs := earray_sys_attrs 0 |} in
    _ ← put_node h name leaf;
    append h name leaf obj.

(** [h5file.root.<node>.set_attr(name, value)] *)
Definition set_attr (h : File) (node : string) (name : string)
           (value : attr_value) : M unit :=
  leaf ← get_node h node;
  _ ← check_writable h;
  put_node h node
    {| atom := atom leaf;
       leaf_shape := leaf_shape leaf;
       leaf_data := leaf_data leaf;
       v_attrs := <[name := value]> (v_attrs leaf) |}.

(** Names PyTables reserves for its own attributes ([SYS_ATTRS]). *)
Definition SYS_ATTRS : list string :=
  ["CLASS"; "VERSION"; "TITLE"; "NROWS"; "EXTDIM"; "ENCODING";
   "PYTABLES_FORMAT_VERSION"; "FLAVOR"; "FILTERS"; "AUTO_INDEX";
   "DIRTY"; "NODE_TYPE"; "NODE_TYPE_VERSION"; "PSEUDOATOM"].

(** [leaf.attrs._v_attrnames]: the names of all attributes. *)
Definition attrnames (leaf : Leaf) : gset string := dom (v_attrs leaf).

(** [issysattrname]: a reserved name, or one starting with ["FIELD_"]. *)
Definition issysattrname (name : string) : bool :=
  bool_decide (name ∈ SYS_ATTRS) || String.prefix "FIELD_" name.

(** [leaf.attrs._v_attrnamesuser]: the names that are not reserved. *)
Definition attrnamesuser (leaf : Leaf) : gset string :=
  filter (λ n, issysattrname n = false) (dom (v_attrs leaf)).

(** [leaf[i0, i1, ...]] with one index per axis; [None] is [IndexError]. *)
Definition getitem (leaf : Leaf) (idx : list nat) : option float :=
  if np.in_bounds (leaf_shape leaf) idx
  then Some (np.item (leaf_data leaf)
                     (np.offset (np.c_strides (leaf_shape leaf)) idx))
  else None.

(** [leaf.read()]: the whole dataset as an array. *)
Definition read (leaf : Leaf) : np.ndarray :=
  {| np.dtype_of := atom leaf;
     np.shape := leaf_shape leaf;
     np.strides := np.c_strides (leaf_shape leaf);
     np.data := leaf_data leaf |}.

(** [leaf.get_attr(name)] *)
Definition get_attr (leaf : Leaf) (name : string) : M attr_value :=
  match v_attrs leaf !! name with
  | Some v => mret v
  | None => raise AttributeError
  end.

End tables.

(** ** The notebook *)

(** Line 213: [np.genfromtxt(fname, delimiter=',', dtype='float32')]. *)
Definition genfromtxt (fname : string) : M np.ndarray :=
  d ← get_disk;
  match d !! fname with
  | None => raise OSError
  | Some (TextFile content) => lift (np.genfromtxt_str content)
  | Some _ => raise UnicodeDecodeError
  end.

(** The delimited-text adapter (line 213), for any file name. *)
Definition datacsv (fname : string) : M np.ndarray :=
  genfromtxt fname.

(** The legacy-binary adapter (lines 286-287):
    [np.array(loadmat(fname)['ans'], dtype='float32')]. *)
Definition datamat7 (fname : string) : M np.ndarray :=
  d ← scipy_io.loadmat fname;
  ans ← scipy_io.getitem d "ans";
  mret (np.array ans np.float32).

(** The HDF5-binary adapter (lines 324-326):
    [np.array(matfile73.root.ans[:,:], dtype='float32').T].  The notebook
    does not close [matfile73]. *)
Definition datamat73 (fname : string) : M np.ndarray :=
  matfile73 ← tables.open_file fname mode_r "";
  ans ← tables.get_node matfile73 "ans";
  a ← lift (tables.read_slice2 ans);
  mret (np.T (np.array a np.float32)).

(** The canonical writer: the four calls of lines 245-250 (and again
    288-293, 327-332), with the file name, the array and the frequency as
    parameters.  [display] changes nothing. *)
Definition write (destination_path : string) (matrix : np.ndarray)
           (sample_freq : float) : M unit :=
  h5file ← tables.open_file destination_path mode_w "three_sources";
  _ ← tables.create_earray h5file "time_data" matrix;
  _ ← tables.set_attr h5file "time_data" "sample_freq" (AttrFloat sample_freq);
  tables.close h5file.

(** The three conversion cells as the notebook runs them. *)
Definition cell_csv : M unit :=
  a ← datacsv "three_sources.csv";
  write "three_sources_from_csv.h5" a (float_of_Z 51200).

Definition cell_mat7 : M unit :=
  a ← datamat7 "three_sourcesv7.mat";
  write "three_sources_from_mat7.h5" a (float_of_Z 51200).

Definition cell_mat73 : M unit :=
  a ← datamat73 "three_sourcesv73.mat";
  write "three_sources_from_mat73.h5" a (float_of_Z 51200).

(** Re-reading a written container the way lines 69-165 inspect one:
    open read-only, take [root.time_data], read the array and the
    attribute. *)
Definition read_back (path : string) : M (np.ndarray * attr_value) :=
  h5file ← tables.open_file path mode_r "";
  time_data ← tables.get_node h5file "time_data";
  sample_freq ← tables.get_attr time_data "sample_freq";
  _ ← tables.close h5file;
  mret (tables.read time_data, sample_freq).

(** Modelled from the spec: the Conversion Driver [convert] of section 4.5
    is missing from the notebook, where every cell hard-codes its format.
    As specified, it selects the adapter by the format tag, fails with
    [UnsupportedFormat] on an unknown tag, and otherwise parses and then
    writes. *)
Definition select_adapter (source_format : string)
  : option (string → M np.ndarray) :=
  if bool_decide (source_format = "delimited_text") then Some datacsv
  else if bool_decide (source_format = "legacy_binary_matrix") then Some datamat7
  else if bool_decide (source_format = "hdf5_binary_matrix") then Some datamat73
  else None.

Definition convert (source_path source_format destination_path : string)
           (sample_freq : float) : M unit :=
  match select_adapter source_format with
  | None => raise UnsupportedFormat
  | Some parse =>
      matrix ← parse source_path;
      write destination_path matrix sample_freq
  end.

(** The dataset and the container a successful [write] leaves behind
    (lemma [write_ok] below). *)
Definition time_data_of (matrix : np.ndarray) (sample_freq : float) : Leaf :=
  {| atom := np.dtype_of matrix;
     leaf_shape := np.shape matrix;
     leaf_data := np.ravel matrix;
     v_attrs := <["sample_freq" := AttrFloat sample_freq]>
                  (tables.earray_sys_attrs 0) |}.

Definition written (matrix : np.ndarray) (sample_freq : float) : h5 :=
  {| matlab_header := false;
     root_attrs := tables.new_root_attrs "three_sources";
     root := {[ "time_data" := time_data_of matrix sample_freq ]} |}.

(** The handle [write] works with. *)
Definition destination (destination_path : string) : File :=
  {| filename := destination_path; file_mode := mode_w |}.

(** ** The download and inspection cells *)

(** [urllib.request.urlretrieve(url, filename)]: the file the server holds
    under [url] is stored under [filename], replacing what was there.  The
    server is the map [remote]; a URL it does not serve raises
    [urllib.error.HTTPError], a subclass of [OSError], before anything is
    written. *)
Definition urlretrieve (remote : gmap string file) (url filename : string)
  : M unit :=
  match remote !! url with
  | Some content => put_file filename content
  | None => raise OSError
  end.

(** A [for] loop: the body runs for each element in turn; an exception ends
    the loop. *)
Fixpoint for_each {A} (xs : list A) (body : A → M unit) : M unit :=
  match xs with
  | [] => mret ()
  | x :: xs' => _ ← body x; for_each xs' body
  end.

Definition url : string := "https://zenodo.org/record/5809069/files/".

Definition filenames : list string :=
  ["three_sources.h5"; "three_sources.csv";
   "three_sourcesv7.mat"; "three_sourcesv73.mat"].

(** Lines 30-34: the four sample files are fetched one after the other. *)
Definition download (remote : gmap string file) : M unit :=
  for_each filenames (λ filename, urlretrieve remote (url +:+ filename) filename).

(** [leaf[:stop, col]]: the rows before [stop] (as many as there are) of
    column [col], as a fresh array without the second axis.  An index past
    the second dimension and a dataset with fewer than two axes raise
    [IndexError]. *)
Definition getitem_rows_col (leaf : Leaf) (stop col : nat)
  : result np.ndarray :=
  match leaf_shape leaf with
  | n0 :: n1 :: rest =>
      if Nat.ltb col n1 then
        let view :=
          {| np.dtype_of := atom leaf;
             np.shape := Nat.min stop n0 :: rest;
             np.strides := n1 * np.prod rest :: np.c_strides rest;
             np.data := drop (col * np.prod rest) (leaf_data leaf) |} in
        Ok {| np.dtype_of := atom leaf;
              np.shape := np.shape view;
              np.strides := np.c_strides (np.shape view);
              np.data := np.ravel view |}
      else Raise IndexError
  | _ => Raise IndexError
  end.

(** What the inspection cells show of a file (lines 69-70, 102, 133, 165):
    the names of the children of the root, the node [time_data], its first
    ten samples of channel 47 and its attributes.  The notebook does not
    close [h5file]. *)
Record inspection : Type := mk_inspection {
  shown_children : gset string;
  shown_time_data : Leaf;
  shown_first_samples : np.ndarray;
  shown_attrs : gmap string attr_value
}.

Definition inspect (fname : string) : M inspection :=
  h5file ← tables.open_file fname mode_r "";
  f ← tables.contents h5file;
  node ← tables.get_node h5file "time_data";
  samples ← lift (getitem_rows_col node 10 47);
  mret {| shown_children := dom (root f);
          shown_time_data := node;
          shown_first_samples := samples;
          shown_attrs := v_attrs node |}.

(** ** Vocabulary of the statements *)

(** Number of fields [split_line] finds on a line; 0 for a blank line. *)
Definition field_count (line : list ascii) : nat := length (np.split_line line).

(** Some data line after the first one has another number of fields than
    the first data line.  (Blank lines and comment lines are no data
    lines.) *)
Definition ragged (text : string) : Prop :=
  ∃ first_line rest line,
    np.first_valid (np.readlines (list_ascii_of_string text))
      = Some (first_line, rest) ∧
    line ∈ rest ∧
    field_count line ≠ 0 ∧
    field_count line ≠ field_count first_line.

(** The rows of the [R] x [C] dataset [L]. *)
Definition rows_of (L : nat → nat → float) (R C : nat) : list (list float) :=
  map (λ i, map (L i) (seq 0 C)) (seq 0 R).

(** The fields of the data lines of a text, line by line: what is left
    once comments, blank lines, line ends and the spaces around a line are
    gone. *)
Definition data_fields (text : string) : list (list (list ascii)) :=
  filter (λ values, values ≠ [])
         (map np.split_line (np.readlines (list_ascii_of_string text))).

(** The float32 value [np.genfromtxt] makes of a field. *)
Definition field_value (value : list ascii) : float :=
  round32 (np.loose_call value).

(** All data lines have as many fields as the first one. *)
Definition uniform (fields : list (list (list ascii))) : Prop :=
  match fields with
  | [] => True
  | first :: rest => Forall (λ values, length values = length first) rest
  end.

Global Instance uniform_dec fields : Decision (uniform fields).
Proof. destruct fields; simpl; apply _. Defined.

(** The fields of the lines of [fhd] that are not blank. *)
Definition nonblank (fhd : list (list ascii)) : list (list (list ascii)) :=
  filter (λ values, values ≠ []) (map np.split_line fhd).

(** The server holds a file under the URL of [name]. *)
Definition served (remote : gmap string file) (name : string) : Prop :=
  is_Some (remote !! (url +:+ name)).

(** ** Concrete inputs used below *)

Definition nl : string := String "010" "".

Definition empty_world : world := {| disk := ∅; open_files := [] |}.

(** A float32 matrix with two rows and no column, [np.zeros((2, 0))]. *)
Definition zero_columns : np.ndarray :=
  {| np.dtype_of := np.float32; np.shape := [2; 0];
     np.strides := [0; 1]; np.data := [] |}.

(** [[1, 2], [3, 4]] as float32. *)
Definition two_by_two : np.ndarray :=
  {| np.dtype_of := np.float32; np.shape := [2; 2]; np.strides := [2; 1];
     np.data := map (λ z, round32 (float_of_Z z)) [1; 2; 3; 4]%Z |}.

(** The file of the end-to-end scenario. *)
Definition scenario_csv : string :=
  "1.0,2.0" +:+ nl +:+ "3.0,4.0" +:+ nl +:+ "5.0,6.0".

Definition scenario_world : world :=
  {| disk := {[ "in.csv" := TextFile scenario_csv ]}; open_files := [] |}.

(** A file whose second line has a field that is no number. *)
Definition not_a_number_world : world :=
  {| disk := {[ "in.csv" := TextFile ("1.0,abc" +:+ nl +:+ "3.0,4.0") ]};
     open_files := [] |}.

(** A file with a short second line. *)
Definition ragged_world : world :=
  {| disk := {[ "in.csv" := TextFile ("1.0,2.0" +:+ nl +:+ "3.0") ]};
     open_files := [] |}.

(** One dataset in the three formats: [rows] as text, as the variable
    [ans] of a MAT file, and transposed as the dataset [ans] of an HDF5
    file. *)
Definition transposed_leaf (channels samples : nat) (values : list Z) : Leaf :=
  {| atom := np.float64; leaf_shape := [channels; samples];
     leaf_data := map float_of_Z values; v_attrs := ∅ |}.

Definition three_formats (text : string) (samples channels : nat)
           (by_rows by_columns : list Z) : world :=
  {| disk :=
       <["in.csv" := TextFile text]>
       (<["in7.mat" := MatFile {[ "ans" :=
            {| np.dtype_of := np.float64; np.shape := [samples; channels];
               np.strides := [channels; 1];
               np.data := map float_of_Z by_rows |} ]}]>
       (<["in73.mat" := HDF5File
            {| matlab_header := true; root_attrs := ∅;
               root := {[ "ans" := transposed_leaf channels samples by_columns ]} |}]>
        ∅));
     open_files := [] |}.

(** One sample of two channels, [[1, 2]]. *)
Definition one_row_world : world :=
  three_formats "1.0,2.0" 1 2 [1; 2]%Z [1; 2]%Z.

(** Two samples of two channels, [[1, 2], [3, 4]]. *)
Definition two_rows_world : world :=
  three_formats ("1.0,2.0" +:+ nl +:+ "3.0,4.0") 2 2 [1; 2; 3; 4]%Z [1; 3; 2; 4]%Z.

(** The same two rows, once with a comment line, a blank line, spaces at
    the line ends, a trailing comment and DOS line ends, once plain. *)
Definition cr : string := String "013" "".

Definition layout_world : world :=
  {| disk :=
       <["notes.csv" := TextFile ("# two rows" +:+ cr +:+ nl +:+
                                  "1.0,2.0 " +:+ cr +:+ nl +:+
                                  cr +:+ nl +:+
                                  "3.0,4.0 # last" +:+ nl)]>
       (<["plain.csv" := TextFile ("1.0,2.0" +:+ nl +:+ "3.0,4.0")]> ∅);
     open_files := [] |}.

(** A file holding the single value 5.0, and a file holding one column. *)
Definition single_value_world : world :=
  {| disk := {[ "in.csv" := TextFile "5.0" ]}; open_files := [] |}.

Definition one_column_world : world :=
  {| disk := {[ "in.csv" := TextFile ("1.0" +:+ nl +:+ "2.0" +:+ nl +:+ "3.0") ]};
     open_files := [] |}.




(** [[1, 2, 3], [4, 5, 6]] in Fortran (column-major) order, the layout
    [loadmat] returns, as the variable [ans] of a MAT file. *)
Definition fortran_matrix : np.ndarray :=
  {| np.dtype_of := np.float64; np.shape := [2; 3]; np.strides := [1; 2];
     np.data := map float_of_Z [1; 4; 2; 5; 3; 6]%Z |}.

Definition fortran_world : world :=
  {| disk := {[ "in7.mat" := MatFile {[ "ans" := fortran_matrix ]} ]};
     open_files := [] |}.

(** A float32 vector, and a float32 matrix of 2 rows and 48 columns holding
    0, 1, ..., 95. *)
Definition one_dim : np.ndarray :=
  {| np.dtype_of := np.float32; np.shape := [3]; np.strides := [1];
     np.data := map (λ z, round32 (float_of_Z z)) [1; 2; 3]%Z |}.

Definition wide : np.ndarray :=
  {| np.dtype_of := np.float32; np.shape := [2; 48]; np.strides := [48; 1];
     np.data := map (λ n, round32 (float_of_Z (Z.of_nat n))) (seq 0 96) |}.

(** A server holding the four sample files, and one without the text
    file. *)
Definition server_without_csv : gmap string file :=
  <[url +:+ "three_sources.h5" :=
      HDF5File (written two_by_two (float_of_Z 51200))]>
  (<[url +:+ "three_sourcesv7.mat" :=
      MatFile {[ "ans" := two_by_two ]}]>
  (<[url +:+ "three_sourcesv73.mat" :=
      HDF5File {| matlab_header := true; root_attrs := ∅;
                  root := {[ "ans" := transposed_leaf 2 2 [1; 3; 2; 4]%Z ]} |}]>
   ∅)).

Definition server : gmap string file :=
  <[url +:+ "three_sources.csv" :=
      TextFile ("1.0,2.0" +:+ nl +:+ "3.0,4.0")]> server_without_csv.

(** * Properties *)

(** ** Lists cut in equal chunks *)

Section list_facts.
Context {A : Type}.

Lemma flat_map_uniform_length (f : nat → list A) (P : nat) (l : list nat) :
  (∀ x, length (f x) = P) → length (flat_map f l) = length l * P.
Proof.
  intros Hf. induction l as [|x l IH]; simpl; [done|].
  rewrite length_app, Hf, IH. done.
Qed.

Lemma flat_map_chunk_lookup (f : nat → list A) (P n a i k : nat) :
  (∀ x, length (f x) = P) → i < n → k < P →
  flat_map f (seq a n) !! (i * P + k) = f (a + i) !! k.
Proof.
  intros Hf. revert a i. induction n as [|n IH]; intros a i Hi Hk; [lia|].
  simpl. destruct i as [|i].
  - rewrite Nat.add_0_r. simpl. apply lookup_app_l. rewrite Hf. lia.
  - rewrite lookup_app_r by (rewrite Hf; lia).
    rewrite Hf. replace (S i * P + k - P) with (i * P + k) by lia.
    rewrite IH by lia. by replace (S a + i) with (a + S i) by lia.
Qed.
End list_facts.

Lemma length_flat_from sh st off buf :
  length (np.flat_from sh st off buf) = np.prod sh.
Proof.
  revert st off. induction sh as [|n sh IH]; intros st off; simpl; [done|].
  rewrite (flat_map_uniform_length _ (np.prod sh)) by (intros; apply IH).
  rewrite length_seq. done.
Qed.

Lemma length_ravel a : length (np.ravel a) = np.size a.
Proof. apply length_flat_from. Qed.

Lemma offset_cons st i idx :
  np.offset st (i :: idx) = i * hd 0 st + np.offset (tail st) idx.
Proof. destruct st as [|s st]; simpl; [lia|done]. Qed.

Lemma in_bounds_offset_lt sh idx :
  np.in_bounds sh idx = true → np.offset (np.c_strides sh) idx < np.prod sh.
Proof.
  revert idx. induction sh as [|n sh IH]; intros [|i idx] H; simpl in *; try done; [lia|].
  apply andb_prop in H as [Hi H]. apply Nat.ltb_lt in Hi.
  specialize (IH _ H). nia.
Qed.

Lemma flat_from_lookup sh st off buf idx :
  np.in_bounds sh idx = true →
  np.flat_from sh st off buf !! np.offset (np.c_strides sh) idx
  = Some (np.item buf (off + np.offset st idx)).
Proof.
  revert st off idx. induction sh as [|n sh IH]; intros st off [|i idx] H;
    simpl in H; try done.
  - simpl. destruct st; simpl; rewrite Nat.add_0_r; done.
  - apply andb_prop in H as [Hi H]. apply Nat.ltb_lt in Hi.
    cbn [np.flat_from np.c_strides np.offset].
    rewrite (flat_map_chunk_lookup _ (np.prod sh))
      by (first [intros; apply length_flat_from | done | by apply in_bounds_offset_lt]).
    rewrite IH by done. rewrite offset_cons. simpl. do 2 f_equal. lia.
Qed.

Lemma flat_from_contiguous sh off buf :
  off + np.prod sh ≤ length buf →
  np.flat_from sh (np.c_strides sh) off buf = take (np.prod sh) (drop off buf).
Proof.
  revert off. induction sh as [|n sh IH]; intros off Hlen; simpl in *.
  - unfold np.item. destruct (lookup_lt_is_Some_2 buf off) as [x Hx]; [lia|].
    rewrite Hx. simpl. rewrite (drop_S _ _ _ Hx). simpl. by rewrite take_0.
  - set (P := np.prod sh) in *.
    assert (∀ m a, a + m * P ≤ length buf →
      flat_map (λ i, np.flat_from sh (np.c_strides sh) (a + i * P) buf) (seq 0 m)
      = take (m * P) (drop a buf)) as Haux.
    { clear Hlen. intros m. induction m as [|m IHm]; intros a Ha; simpl; [done|].
      rewrite Nat.add_0_r, IH by lia.
      rewrite <- seq_shift, flat_map_concat_map, map_map, <- flat_map_concat_map.
      erewrite flat_map_ext; [rewrite (IHm (a + P)) by lia|intros i; simpl; f_equal; lia].
      by rewrite <- drop_drop, take_take_drop. }
    apply (Haux n off). lia.
Qed.

Lemma item_map f buf k :
  k < length buf → np.item (map f buf) k = f (np.item buf k).
Proof.
  intros Hk. unfold np.item. rewrite list_lookup_fmap.
  destruct (lookup_lt_is_Some_2 buf k Hk) as [x ->]. done.
Qed.

Lemma getitem_array a dt idx :
  np.getitem (np.array a dt) idx = np.cast dt <$> np.getitem a idx.
Proof.
  unfold np.getitem. simpl. destruct (np.in_bounds (np.shape a) idx) eqn:Hb; [|done].
  simpl. f_equal. pose proof (in_bounds_offset_lt _ _ Hb) as Hlt.
  rewrite item_map by (rewrite length_ravel; done).
  f_equal. unfold np.item, np.ravel. by rewrite flat_from_lookup.
Qed.

Lemma in_bounds_Forall2 sh idx :
  np.in_bounds sh idx = true ↔ Forall2 (λ i n, i < n) idx sh.
Proof.
  revert idx. induction sh as [|n sh IH]; intros [|i idx]; simpl; split; intros H;
    try done; try (by inversion H).
  - apply andb_prop in H as [Hi H]. constructor; [by apply Nat.ltb_lt|by apply IH].
  - inversion H; subst. apply andb_true_intro. split; [by apply Nat.ltb_lt|by apply IH].
Qed.

Lemma in_bounds_length sh idx :
  np.in_bounds sh idx = true → length idx = length sh.
Proof. rewrite in_bounds_Forall2. apply Forall2_length. Qed.

Lemma in_bounds_rev sh idx :
  np.in_bounds (rev sh) (rev idx) = np.in_bounds sh idx.
Proof.
  apply eq_true_iff_eq. rewrite !in_bounds_Forall2, !rev_alt.
  change (Forall2 (λ i n, i < n) (reverse idx) (reverse sh)
          ↔ Forall2 (λ i n, i < n) idx sh).
  split; intros H.
  - apply Forall2_reverse in H. by rewrite !reverse_involutive in H.
  - by apply Forall2_reverse.
Qed.

Lemma offset_app st1 st2 idx1 idx2 :
  length st1 = length idx1 →
  np.offset (st1 ++ st2) (idx1 ++ idx2) = np.offset st1 idx1 + np.offset st2 idx2.
Proof.
  revert idx1. induction st1 as [|s st1 IH]; intros [|i idx1] H; simpl in *; try done.
  rewrite IH by lia. lia.
Qed.

Lemma offset_rev st idx :
  length st = length idx → np.offset (rev st) (rev idx) = np.offset st idx.
Proof.
  revert idx. induction st as [|s st IH]; intros [|i idx] H; simpl in *; try done.
  rewrite offset_app by (rewrite !length_rev; lia).
  rewrite IH by lia. simpl. lia.
Qed.

(** Indexing a transposed array is indexing the array with the indices
    reversed. *)
Lemma getitem_T a idx :
  length (np.strides a) = length (np.shape a) →
  np.getitem (np.T a) (rev idx) = np.getitem a idx.
Proof.
  intros Hst. unfold np.getitem. simpl. rewrite in_bounds_rev.
  destruct (np.in_bounds (np.shape a) idx) eqn:Hb; [|done].
  rewrite offset_rev; [done|]. apply in_bounds_length in Hb. lia.
Qed.

Lemma length_c_strides sh : length (np.c_strides sh) = length sh.
Proof. induction sh; simpl; congruence. Qed.

Lemma ravel_contiguous dt sh buf :
  length buf = np.prod sh →
  np.ravel {| np.dtype_of := dt; np.shape := sh;
              np.strides := np.c_strides sh; np.data := buf |} = buf.
Proof.
  intros H. unfold np.ravel. simpl. rewrite flat_from_contiguous by lia.
  rewrite drop_0. apply take_ge. lia.
Qed.

Lemma getitem_contiguous_ravel dt a idx :
  np.getitem {| np.dtype_of := dt; np.shape := np.shape a;
                np.strides := np.c_strides (np.shape a);
                np.data := np.ravel a |} idx
  = np.getitem a idx.
Proof.
  unfold np.getitem. simpl. destruct (np.in_bounds (np.shape a) idx) eqn:Hb; [|done].
  f_equal. unfold np.item at 1. unfold np.ravel. by rewrite flat_from_lookup.
Qed.

(** ** Running the calls *)

Lemma bind_run {A B} (m : M A) (k : A → M B) st :
  (m ≫= k) st = match m st with
                | (Ok a, st') => k a st'
                | (Raise e, st') => (Raise e, st')
                end.
Proof. done. Qed.

Lemma contents_run h st f :
  h ∈ open_files st → disk st !! filename h = Some (HDF5File f) →
  tables.contents h st = (Ok f, st).
Proof.
  intros Hin Hf. unfold tables.contents. rewrite bool_decide_eq_true_2 by done.
  by rewrite Hf.
Qed.

Lemma put_node_run h name leaf st f :
  h ∈ open_files st → disk st !! filename h = Some (HDF5File f) →
  tables.put_node h name leaf st
  = (Ok (), {| disk := <[filename h :=
                          HDF5File {| matlab_header := matlab_header f; root_attrs := root_attrs f;
                                      root := <[name := leaf]> (root f) |}]> (disk st);
              open_files := open_files st |}).
Proof.
  intros Hin Hf. unfold tables.put_node. rewrite bind_run, (contents_run _ _ f) by done.
  done.
Qed.

Lemma get_node_run h name st f :
  h ∈ open_files st → disk st !! filename h = Some (HDF5File f) →
  tables.get_node h name st
  = (match root f !! name with Some leaf => Ok leaf | None => Raise NoSuchNodeError end, st).
Proof.
  intros Hin Hf. unfold tables.get_node. rewrite bind_run, (contents_run _ _ f) by done.
  by destruct (root f !! name).
Qed.

Lemma forget_head h hs : tables.forget h (h :: hs) = hs.
Proof. simpl. by rewrite decide_True. Qed.

Lemma zerodims_cons_0 sh : tables.zerodims (0 :: sh) = S (tables.zerodims sh).
Proof. unfold tables.zerodims. by rewrite filter_cons_True. Qed.

Lemma zerodims_prod sh : tables.zerodims sh = 0 ↔ np.prod sh ≠ 0.
Proof.
  unfold tables.zerodims. induction sh as [|n sh IH]; simpl; [lia|].
  destruct (decide (n = 0)) as [->|Hn].
  - rewrite filter_cons_True by done. simpl. lia.
  - rewrite filter_cons_False by done. rewrite IH. nia.
Qed.

(** What [create_earray] makes of [matrix] in a file just opened for
    writing. *)
Lemma create_earray_ok h st title matrix :
  file_mode h = mode_w → h ∈ open_files st →
  disk st !! filename h = Some (HDF5File (tables.new_file title)) →
  np.shape matrix ≠ [] → tables.zerodims (0 :: tail (np.shape matrix)) = 1 →
  tables.create_earray h "time_data" matrix st
  = (Ok (), {| disk := <[filename h :=
                 HDF5File {| matlab_header := false; root_attrs := tables.new_root_attrs title;
                             root := {[ "time_data" :=
                               {| atom := np.dtype_of matrix;
                                  leaf_shape := np.shape matrix;
                                  leaf_data := np.ravel matrix;
                                  v_attrs := tables.earray_sys_attrs 0 |} ]} |}]> (disk st);
              open_files := open_files st |}).
Proof.
  intros Hw Hin Hf Hsh Hz. unfold tables.create_earray.
  rewrite bind_run, (contents_run _ _ _ Hin Hf).
  unfold tables.check_writable. rewrite Hw. rewrite bind_run. cbn [mret M_ret].
  change (root (tables.new_file title)) with (∅ : gmap string Leaf). rewrite lookup_empty.
  rewrite bool_decide_eq_false_2 by (by intros [? ?]).
  rewrite Hz. cbn [Nat.eqb negb].
  rewrite bind_run, (put_node_run _ _ _ _ _ Hin Hf).
  set (st1 := mk_world _ _).
  assert (h ∈ open_files st1) as Hin1 by done.
  unfold tables.append. cbn [leaf_shape atom v_attrs].
  destruct (np.shape matrix) as [|n sh] eqn:Esh; [done|].
  unfold np.ndim. rewrite Esh. cbn [length tail hd]. rewrite Nat.eqb_refl. cbn [negb].
  rewrite zerodims_cons_0 in Hz. assert (np.prod sh ≠ 0) as Hp by (apply zerodims_prod; simpl in Hz; lia).
  unfold np.size. rewrite Esh.
  destruct (Nat.ltb 0 (np.prod (n :: sh))) eqn:Esz.
  - erewrite put_node_run; [|done|subst st1; simpl; apply lookup_insert_eq].
    subst st1. simpl. rewrite !insert_insert_eq. by rewrite insert_empty.
  - apply Nat.ltb_ge in Esz. simpl in Esz. assert (n = 0) as -> by nia.
    assert (np.ravel matrix = []) as ->.
    { apply nil_length_inv. rewrite length_ravel. unfold np.size. rewrite Esh. done. }
    cbn [mret M_ret]. subst st1. simpl. by rewrite insert_empty.
Qed.

Lemma set_attr_run h st f node leaf name value :
  file_mode h = mode_w → h ∈ open_files st →
  disk st !! filename h = Some (HDF5File f) → root f !! node = Some leaf →
  tables.set_attr h node name value st
  = (Ok (), {| disk := <[filename h :=
                 HDF5File {| matlab_header := matlab_header f; root_attrs := root_attrs f;
                             root := <[node :=
                               {| atom := atom leaf;
                                  leaf_shape := leaf_shape leaf;
                                  leaf_data := leaf_data leaf;
                                  v_attrs := <[name := value]> (v_attrs leaf) |}]> (root f) |}]>
                 (disk st);
              open_files := open_files st |}).
Proof.
  intros Hw Hin Hf Hleaf. unfold tables.set_attr.
  rewrite bind_run, (get_node_run _ _ _ _ Hin Hf), Hleaf.
  unfold tables.check_writable. rewrite Hw, bind_run. cbn [mret M_ret].
  by apply put_node_run.
Qed.

Lemma open_file_w_run dest title st :
  ¬ held_open dest st →
  tables.open_file dest mode_w title st
  = (Ok (destination dest),
     {| disk := <[dest := HDF5File (tables.new_file title)]> (disk st);
        open_files := destination dest :: open_files st |}).
Proof.
  intros Hfree. unfold tables.open_file. rewrite bind_run. cbn [tables.get_open_files].
  unfold is_held_open. by rewrite bool_decide_eq_false_2.
Qed.

Lemma not_held_open_cons path h d st :
  filename h ≠ path → ¬ held_open path st →
  ¬ held_open path {| disk := d; open_files := h :: open_files st |}.
Proof.
  unfold held_open. cbn [open_files]. rewrite fmap_cons, not_elem_of_cons.
  by intros ? ?.
Qed.

(** A destination the process still holds open is refused, and nothing
    changes. *)
Lemma open_file_w_held dest title st :
  held_open dest st →
  tables.open_file dest mode_w title st = (Raise ValueError, st).
Proof.
  intros Hheld. unfold tables.open_file. rewrite bind_run. cbn [tables.get_open_files].
  unfold is_held_open. by rewrite bool_decide_eq_true_2.
Qed.

Lemma write_held dest matrix f st :
  held_open dest st → write dest matrix f st = (Raise ValueError, st).
Proof.
  intros Hheld. unfold write. by rewrite bind_run, open_file_w_held.
Qed.

(** A matrix with at least one axis and no empty axis after the first is
    written as [written] describes, and the handle is released. *)
Lemma write_ok dest matrix f st :
  ¬ held_open dest st →
  np.shape matrix ≠ [] → tables.zerodims (0 :: tail (np.shape matrix)) = 1 →
  write dest matrix f st
  = (Ok (), {| disk := <[dest := HDF5File (written matrix f)]> (disk st);
              open_files := open_files st |}).
Proof.
  intros Hfree Hsh Hz. unfold write.
  rewrite bind_run, open_file_w_run by done.
  rewrite bind_run.
  erewrite create_earray_ok; [|done|by left|apply lookup_insert_eq|done..].
  rewrite bind_run.
  erewrite set_attr_run; [|done|by left|apply lookup_insert_eq|apply lookup_singleton_eq].
  unfold tables.close. simpl. rewrite decide_True by done.
  rewrite !insert_insert_eq, insert_singleton_eq. done.
Qed.

(** More than one empty axis: [create_earray] raises, and [close] is never
    reached. *)
Lemma write_zerodims dest matrix f st :
  ¬ held_open dest st →
  tables.zerodims (0 :: tail (np.shape matrix)) ≠ 1 →
  write dest matrix f st
  = (Raise NotImplementedError,
     {| disk := <[dest := HDF5File (tables.new_file "three_sources")]> (disk st);
        open_files := destination dest :: open_files st |}).
Proof.
  intros Hfree Hz. unfold write.
  rewrite bind_run, open_file_w_run, bind_run by done.
  unfold tables.create_earray.
  rewrite bind_run. erewrite contents_run; [|by left|apply lookup_insert_eq].
  rewrite bind_run. cbn [tables.check_writable destination file_mode mret M_ret].
  change (root (tables.new_file "three_sources")) with (∅ : gmap string Leaf).
  rewrite lookup_empty, bool_decide_eq_false_2 by (by intros [? ?]).
  apply Nat.eqb_neq in Hz. rewrite Hz. done.
Qed.

(** A zero-dimensional array: the empty [EArray] is created, appending
    raises, and [close] is never reached. *)
Lemma write_scalar dest matrix f st :
  ¬ held_open dest st →
  np.shape matrix = [] →
  write dest matrix f st
  = (Raise ValueError,
     {| disk := <[dest := HDF5File
                   {| matlab_header := false; root_attrs := tables.new_root_attrs "three_sources";
                      root := {[ "time_data" :=
                         {| atom := np.dtype_of matrix;
                            leaf_shape := [0];
                            leaf_data := [];
                            v_attrs := tables.earray_sys_attrs 0 |} ]} |}]> (disk st);
        open_files := destination dest :: open_files st |}).
Proof.
  intros Hfree Hsh. unfold write.
  rewrite bind_run, open_file_w_run, bind_run by done.
  unfold tables.create_earray.
  rewrite bind_run. erewrite contents_run; [|by left|apply lookup_insert_eq].
  rewrite bind_run. cbn [tables.check_writable destination file_mode mret M_ret].
  change (root (tables.new_file "three_sources")) with (∅ : gmap string Leaf).
  rewrite lookup_empty, bool_decide_eq_false_2 by (by intros [? ?]).
  rewrite Hsh. cbn [tail tables.zerodims].
  change (tables.zerodims [0]) with 1. cbn [Nat.eqb negb].
  rewrite bind_run. erewrite put_node_run; [|by left|apply lookup_insert_eq].
  unfold tables.append, np.ndim. rewrite Hsh. simpl.
  rewrite insert_insert_eq. by rewrite insert_empty.
Qed.

(** The three lemmas cover every array written to a destination that is
    not held open. *)
Lemma write_cases matrix :
  (np.shape matrix ≠ [] ∧ tables.zerodims (0 :: tail (np.shape matrix)) = 1)
  ∨ tables.zerodims (0 :: tail (np.shape matrix)) ≠ 1
  ∨ np.shape matrix = [].
Proof.
  destruct (decide (tables.zerodims (0 :: tail (np.shape matrix)) = 1)); [|by auto].
  destruct (np.shape matrix); [by auto|]. left. done.
Qed.

(** Case analysis on the four ways [write] can go; rewrites every [write]
    of the goal with the lemma of the case. *)
Ltac write_by_cases dest st matrix :=
  destruct (decide (held_open dest st));
  [ rewrite !write_held by done
  | destruct (write_cases matrix) as [[? ?]|[?|?]];
    [ rewrite !write_ok by done
    | rewrite !write_zerodims by done
    | rewrite !write_scalar by done ] ].

(** ** The HDF5-binary adapter *)

Lemma tables_getitem_read leaf idx :
  np.getitem (tables.read leaf) idx = tables.getitem leaf idx.
Proof. done. Qed.


Lemma datamat73_run st fname f ans :
  disk st !! fname = Some (HDF5File f) →
  root f !! "ans" = Some ans →
  2 ≤ length (leaf_shape ans) →
  datamat73 fname st
  = (Ok (np.T (np.array (tables.read ans) np.float32)),
     {| disk := disk st;
        open_files := {| filename := fname; file_mode := mode_r |} :: open_files st |}).
Proof.
  intros Hf Hans Hsh.
  set (h := {| filename := fname; file_mode := mode_r |}).
  set (st1 := {| disk := disk st; open_files := h :: open_files st |}).
  unfold datamat73, tables.open_file. rewrite !bind_run. cbn [get_disk].
  rewrite Hf. rewrite bind_run. cbn [tables.register mret M_ret].
  fold h. fold st1. rewrite bind_run.
  rewrite (get_node_run h "ans" st1 f) by (first [apply list_elem_of_here|exact Hf]).
  rewrite Hans, bind_run. unfold lift, tables.read_slice2.
  destruct (Nat.ltb_spec (length (leaf_shape ans)) 2); [lia|done].
Qed.

Lemma getitem_datamat73 ans i j :
  np.getitem (np.T (np.array (tables.read ans) np.float32)) [i; j]
  = round32 <$> tables.getitem ans [j; i].
Proof.
  change [i; j] with (rev [j; i]).
  rewrite getitem_T by (simpl; apply length_c_strides).
  by rewrite getitem_array, tables_getitem_read.
Qed.



(** ** The canonical writer *)

Lemma zerodims_matrix (R C : nat) :
  C ≠ 0 → tables.zerodims (0 :: tail [R; C]) = 1.
Proof.
  intros HC. rewrite zerodims_cons_0. f_equal. apply zerodims_prod. simpl. lia.
Qed.

Lemma write_matrix dest matrix f st (R C : nat) :
  ¬ held_open dest st →
  np.shape matrix = [R; C] → C ≠ 0 →
  write dest matrix f st
  = (Ok (), {| disk := <[dest := HDF5File (written matrix f)]> (disk st);
              open_files := open_files st |}).
Proof.
  intros Hfree Hsh HC.
  apply write_ok; [done|rewrite Hsh..]; [done|by apply zerodims_matrix].
Qed.

Lemma read_back_written dest matrix f st :
  disk st !! dest = Some (HDF5File (written matrix f)) →
  read_back dest st
  = (Ok (tables.read (time_data_of matrix f), AttrFloat f), st).
Proof.
  intros Hf. unfold read_back, tables.open_file.
  rewrite !bind_run. cbn [get_disk]. rewrite Hf, bind_run.
  cbn [tables.register mret M_ret].
  set (h := {| filename := dest; file_mode := mode_r |}).
  set (st1 := {| disk := disk st; open_files := h :: open_files st |}).
  rewrite bind_run.
  rewrite (get_node_run h "time_data" st1 (written matrix f))
    by (first [apply list_elem_of_here|exact Hf]).
  change (root (written matrix f) !! "time_data")
    with (({[ "time_data" := time_data_of matrix f ]} : gmap string Leaf) !! "time_data").
  rewrite lookup_singleton_eq, bind_run.
  unfold tables.get_attr. cbn [time_data_of v_attrs]. rewrite lookup_insert_eq.
  cbn [mret M_ret]. rewrite bind_run. unfold tables.close. cbn [open_files st1].
  rewrite forget_head. by destruct st.
Qed.

(** C2, as amended: written to a destination the process does not hold
    open, a matrix with at least one column comes back from the written
    container with its shape, its dtype and every element, and the
    attribute read back is the frequency given. *)
Theorem write_read_back_roundtrip st dest matrix f (R C : nat) :
  ¬ held_open dest st →
  np.shape matrix = [R; C] → C ≠ 0 →
  ∃ matrix' st',
    (write dest matrix f ≫= λ _, read_back dest) st
      = (Ok (matrix', AttrFloat f), st') ∧
    np.shape matrix' = np.shape matrix ∧
    np.dtype_of matrix' = np.dtype_of matrix ∧
    np.ravel matrix' = np.ravel matrix ∧
    (∀ idx, np.getitem matrix' idx = np.getitem matrix idx).
Proof.
  intros Hfree Hsh HC. eexists _, _. split.
  { rewrite bind_run, (write_matrix _ _ _ _ R C) by done.
    apply read_back_written. apply lookup_insert_eq. }
  split; [done|]. split; [done|]. split.
  - apply ravel_contiguous. apply length_ravel.
  - intros idx. apply getitem_contiguous_ravel.
Qed.

(** The round trip of [two_by_two]. *)
Lemma write_read_back_roundtrip_witness :
  ∃ matrix' st',
    (write "out.h5" two_by_two (float_of_Z 51200) ≫= λ _, read_back "out.h5")
      empty_world = (Ok (matrix', AttrFloat (float_of_Z 51200)), st') ∧
    np.shape matrix' = np.shape two_by_two ∧
    np.dtype_of matrix' = np.dtype_of two_by_two ∧
    np.ravel matrix' = np.ravel two_by_two ∧
    (∀ idx, np.getitem matrix' idx = np.getitem two_by_two idx).
Proof.
  apply (write_read_back_roundtrip empty_world "out.h5" two_by_two
           (float_of_Z 51200) 2 2); [apply not_elem_of_nil|reflexivity|lia].
Defined.

(** C2 as stated fails for a matrix without columns: nothing can be read
    back, [write] has raised. *)
Lemma roundtrip_fails_without_columns :
  np.shape zero_columns = [2; 0] ∧
  ((write "out.h5" zero_columns (float_of_Z 51200) ≫= λ _, read_back "out.h5")
     empty_world).1 = Raise NotImplementedError.
Proof.
  split; [done|].
  by rewrite bind_run, write_zerodims by (done || apply not_elem_of_nil).
Qed.

Lemma write_success dest matrix f st st' :
  write dest matrix f st = (Ok (), st') →
  st' = {| disk := <[dest := HDF5File (written matrix f)]> (disk st);
           open_files := open_files st |}.
Proof.
  revert st'. write_by_cases dest st matrix; congruence.
Qed.

Lemma attrnames_time_data matrix f :
  tables.attrnames (time_data_of matrix f)
  = {[ "CLASS"; "EXTDIM"; "TITLE"; "VERSION"; "sample_freq" ]}.
Proof.
  unfold tables.attrnames, time_data_of, tables.earray_sys_attrs. cbn [v_attrs].
  rewrite !dom_insert_L, dom_empty_L. set_solver.
Qed.

Lemma attrnamesuser_time_data matrix f :
  tables.attrnamesuser (time_data_of matrix f) = {[ "sample_freq" ]}.
Proof.
  unfold tables.attrnamesuser.
  change (dom (v_attrs (time_data_of matrix f)))
    with (tables.attrnames (time_data_of matrix f)).
  rewrite attrnames_time_data.
  apply set_eq. intros x. rewrite elem_of_filter. split.
  - intros [Hu Hx].
    repeat (apply elem_of_union in Hx as [Hx|Hx]);
      apply elem_of_singleton in Hx; subst; try done; by vm_compute in Hu.
  - intros Hx. apply elem_of_singleton in Hx. subst. split; [by vm_compute|set_solver].
Qed.

Lemma size_attrnames_time_data matrix f :
  size (tables.attrnames (time_data_of matrix f)) = 5.
Proof.
  rewrite attrnames_time_data. reflexivity.
Qed.

(** C3, as amended: after a successful [write] the destination holds
    exactly one root dataset, [time_data]; [sample_freq] is its only
    attribute outside PyTables' own ones; with those four ([CLASS],
    [EXTDIM], [TITLE], [VERSION]) enumerating its attributes yields five
    names. *)
Theorem write_leaves_one_dataset_one_user_attribute st dest matrix f st' :
  write dest matrix f st = (Ok (), st') →
  ∃ container time_data,
    disk st' !! dest = Some (HDF5File container) ∧
    dom (root container) = {[ "time_data" ]} ∧
    root container !! "time_data" = Some time_data ∧
    tables.attrnamesuser time_data = {[ "sample_freq" ]} ∧
    tables.attrnames time_data
      = {[ "CLASS"; "EXTDIM"; "TITLE"; "VERSION"; "sample_freq" ]} ∧
    size (tables.attrnames time_data) = 5.
Proof.
  intros H. apply write_success in H as ->.
  exists (written matrix f), (time_data_of matrix f).
  split; [apply lookup_insert_eq|]. split; [apply dom_singleton_L|].
  split; [apply lookup_singleton_eq|]. split; [apply attrnamesuser_time_data|].
  split; [apply attrnames_time_data|apply size_attrnames_time_data].
Qed.

(** The container written for [two_by_two]. *)
Lemma write_leaves_one_dataset_one_user_attribute_witness :
  ∃ container time_data,
    disk (write "out.h5" two_by_two (float_of_Z 51200) empty_world).2 !! "out.h5"
      = Some (HDF5File container) ∧
    dom (root container) = {[ "time_data" ]} ∧
    root container !! "time_data" = Some time_data ∧
    tables.attrnamesuser time_data = {[ "sample_freq" ]} ∧
    tables.attrnames time_data
      = {[ "CLASS"; "EXTDIM"; "TITLE"; "VERSION"; "sample_freq" ]} ∧
    size (tables.attrnames time_data) = 5.
Proof.
  apply (write_leaves_one_dataset_one_user_attribute
           empty_world "out.h5" two_by_two (float_of_Z 51200)).
  reflexivity.
Defined.

(** C3 as stated fails: the dataset written by the notebook's calls has
    five attributes, not one. *)
Lemma written_dataset_has_five_attributes :
  ∃ st' container time_data,
    write "out.h5" two_by_two (float_of_Z 51200) empty_world = (Ok (), st') ∧
    disk st' !! "out.h5" = Some (HDF5File container) ∧
    root container !! "time_data" = Some time_data ∧
    size (tables.attrnames time_data) = 5 ∧
    size (tables.attrnames time_data) ≠ 1.
Proof.
  eexists _, (written two_by_two (float_of_Z 51200)), (time_data_of _ _).
  split; [by apply (write_matrix _ _ _ _ 2 2); [apply not_elem_of_nil|..]|].
  split; [apply lookup_insert_eq|]. split; [apply lookup_singleton_eq|].
  rewrite size_attrnames_time_data. by split.
Qed.

Lemma getitem_time_data matrix f idx :
  tables.getitem (time_data_of matrix f) idx = np.getitem matrix idx.
Proof. apply (getitem_contiguous_ravel (np.dtype_of matrix)). Qed.

(** C5, as amended: at a destination the process does not hold open, a
    float32 matrix of R rows and C >= 1 columns is stored as the only root
    dataset, the [EArray] [time_data] enlargeable along axis 0, with atom
    float32, shape (R, C) and the elements of the matrix, and carries
    [sample_freq = f]; and the end-to-end scenario gives the (3, 2) dataset
    with the values 1.0 to 6.0 and [sample_freq = 1000.0]. *)
Theorem write_stores_time_data :
  (∀ st dest matrix f (R C : nat),
     ¬ held_open dest st →
     np.shape matrix = [R; C] → C ≠ 0 → np.dtype_of matrix = np.float32 →
     ∃ st' container time_data,
       write dest matrix f st = (Ok (), st') ∧
       disk st' !! dest = Some (HDF5File container) ∧
       dom (root container) = {[ "time_data" ]} ∧
       root container !! "time_data" = Some time_data ∧
       atom time_data = np.float32 ∧
       leaf_shape time_data = [R; C] ∧
       (∀ idx, tables.getitem time_data idx = np.getitem matrix idx) ∧
       v_attrs time_data !! "CLASS" = Some (AttrStr "EARRAY") ∧
       v_attrs time_data !! "EXTDIM" = Some (AttrInt 0) ∧
       v_attrs time_data !! "sample_freq" = Some (AttrFloat f)) ∧
  (∃ st' container time_data,
     (datacsv "in.csv" ≫= λ matrix, write "out.h5" matrix (float_of_Z 1000))
       scenario_world = (Ok (), st') ∧
     disk st' !! "out.h5" = Some (HDF5File container) ∧
     dom (root container) = {[ "time_data" ]} ∧
     root container !! "time_data" = Some time_data ∧
     atom time_data = np.float32 ∧
     leaf_shape time_data = [3; 2] ∧
     leaf_data time_data
       = map (λ z, round32 (float_of_Z z)) [1; 2; 3; 4; 5; 6]%Z ∧
     py.float_ "1000.0" = Some (float_of_Z 1000) ∧
     v_attrs time_data !! "sample_freq" = Some (AttrFloat (float_of_Z 1000))).
Proof.
  split.
  - intros st dest matrix f R C Hfree Hsh HC Hdt.
    eexists _, (written matrix f), (time_data_of matrix f).
    split; [by apply (write_matrix _ _ _ _ R C)|].
    split; [apply lookup_insert_eq|]. split; [apply dom_singleton_L|].
    split; [apply lookup_singleton_eq|]. split; [done|]. split; [done|].
    split; [apply getitem_time_data|]. by repeat split.
  - set (matrix := {| np.dtype_of := np.float32; np.shape := [3; 2];
                      np.strides := [2; 1];
                      np.data := map (λ z, round32 (float_of_Z z))
                                     [1; 2; 3; 4; 5; 6]%Z |}).
    assert (datacsv "in.csv" scenario_world = (Ok matrix, scenario_world)) as Hparse
      by (vm_compute; reflexivity).
    eexists _, (written matrix (float_of_Z 1000)),
      (time_data_of matrix (float_of_Z 1000)).
    split.
    { rewrite bind_run, Hparse.
      by apply (write_matrix _ _ _ _ 3 2); [apply not_elem_of_nil|..]. }
    split; [apply lookup_insert_eq|]. split; [apply dom_singleton_L|].
    split; [apply lookup_singleton_eq|]. split; [done|]. split; [done|].
    split; [by vm_compute|]. split; [by vm_compute|done].
Qed.

(** The general part at [two_by_two]. *)
Lemma write_stores_time_data_witness :
  ∃ st' container time_data,
    write "out.h5" two_by_two (float_of_Z 1000) empty_world = (Ok (), st') ∧
    disk st' !! "out.h5" = Some (HDF5File container) ∧
    dom (root container) = {[ "time_data" ]} ∧
    root container !! "time_data" = Some time_data ∧
    atom time_data = np.float32 ∧
    leaf_shape time_data = [2; 2] ∧
    (∀ idx, tables.getitem time_data idx = np.getitem two_by_two idx) ∧
    v_attrs time_data !! "CLASS" = Some (AttrStr "EARRAY") ∧
    v_attrs time_data !! "EXTDIM" = Some (AttrInt 0) ∧
    v_attrs time_data !! "sample_freq" = Some (AttrFloat (float_of_Z 1000)).
Proof.
  apply (proj1 write_stores_time_data empty_world "out.h5" two_by_two
           (float_of_Z 1000) 2 2);
    [apply not_elem_of_nil|reflexivity|lia|reflexivity].
Defined.

(** C5 as stated fails for a matrix without columns: nothing is stored. *)
Lemma write_rejects_zero_columns :
  np.shape zero_columns = [2; 0] ∧
  np.dtype_of zero_columns = np.float32 ∧
  ∃ st' container,
    write "out.h5" zero_columns (float_of_Z 1000) empty_world
      = (Raise NotImplementedError, st') ∧
    disk st' !! "out.h5" = Some (HDF5File container) ∧
    root container !! "time_data" = None.
Proof.
  split; [done|]. split; [done|]. eexists _, _.
  split; [by apply write_zerodims; [apply not_elem_of_nil|]|].
  split; [apply lookup_insert_eq|done].
Qed.

(** C8, as amended: [write] releases the destination handle when it
    returns.  When it raises there are two cases: the process still held
    the destination open, then [open_file] has raised [ValueError], no
    handle was added and nothing has changed; or a call after the opening
    has raised, then [close] is never reached and the new handle stays
    open. *)
Theorem write_closes_only_on_success st dest matrix f :
  let '(outcome, st') := write dest matrix f st in
  if is_ok outcome
  then open_files st' = open_files st
  else if decide (held_open dest st)
  then outcome = Raise ValueError ∧ st' = st
  else open_files st' = destination dest :: open_files st.
Proof.
  write_by_cases dest st matrix; cbn [is_ok]; try done;
    by (rewrite decide_True by done || rewrite decide_False by done).
Qed.

(** C8 as stated fails: after a failing [write] the destination is still
    open. *)
Lemma write_leaks_handle_on_failure :
  ∃ st', write "out.h5" zero_columns (float_of_Z 51200) empty_world
           = (Raise NotImplementedError, st') ∧
         open_files st' = [destination "out.h5"] ∧
         destination "out.h5" ∈ open_files st'.
Proof.
  eexists. split; [by apply write_zerodims; [apply not_elem_of_nil|]|].
  split; [done|]. apply list_elem_of_here.
Qed.

(** The frequency plays no part in whether [write] succeeds. *)
Lemma write_outcome_ignores_sample_freq st dest matrix f f' :
  is_ok (write dest matrix f st).1 = is_ok (write dest matrix f' st).1.
Proof. write_by_cases dest st matrix; done. Qed.

(** C9: whatever the frequency, zero and negative values included, writing
    a matrix (with at least one column) to a destination the process does
    not hold open succeeds and the attribute stored is the value given. *)
Theorem write_does_not_validate_sample_freq st dest matrix f (R C : nat) :
  ¬ held_open dest st →
  np.shape matrix = [R; C] → C ≠ 0 →
  ∃ st' container time_data,
    write dest matrix f st = (Ok (), st') ∧
    disk st' !! dest = Some (HDF5File container) ∧
    root container !! "time_data" = Some time_data ∧
    v_attrs time_data !! "sample_freq" = Some (AttrFloat f).
Proof.
  intros Hfree Hsh HC. eexists _, (written matrix f), (time_data_of matrix f).
  split; [by apply (write_matrix _ _ _ _ R C)|].
  split; [apply lookup_insert_eq|]. split; [apply lookup_singleton_eq|done].
Qed.

(** The frequencies 0.0 and -51200.0. *)
Lemma write_does_not_validate_sample_freq_witness :
  (∃ st' container time_data,
     write "out.h5" two_by_two (S754_zero false) empty_world = (Ok (), st') ∧
     disk st' !! "out.h5" = Some (HDF5File container) ∧
     root container !! "time_data" = Some time_data ∧
     v_attrs time_data !! "sample_freq" = Some (AttrFloat (S754_zero false))) ∧
  (∃ st' container time_data,
     write "out.h5" two_by_two (float_of_Z (-51200)) empty_world = (Ok (), st') ∧
     disk st' !! "out.h5" = Some (HDF5File container) ∧
     root container !! "time_data" = Some time_data ∧
     v_attrs time_data !! "sample_freq" = Some (AttrFloat (float_of_Z (-51200)))).
Proof.
  split.
  - apply (write_does_not_validate_sample_freq empty_world "out.h5" two_by_two
             (S754_zero false) 2 2); [apply not_elem_of_nil|reflexivity|lia].
  - apply (write_does_not_validate_sample_freq empty_world "out.h5" two_by_two
             (float_of_Z (-51200)) 2 2); [apply not_elem_of_nil|reflexivity|lia].
Defined.

(** C10, as amended: a file already at the destination never changes how
    [write] ends: the outcome is that of the same call with no file there,
    so an existing file is never the cause of a failure ([FileExistsError]
    is not among the outcomes).  When the process does not hold the
    destination open the file is replaced: the disk is that of the same
    call with no file there, the destination holds the new container and
    no other path changes.  When the process still holds the destination
    open, [open_file] raises [ValueError] and the file is left as it
    was. *)
Theorem write_truncates_existing_destination st dest old matrix f :
  disk st !! dest = Some old →
  let fresh := {| disk := delete dest (disk st); open_files := open_files st |} in
  (write dest matrix f st).1 = (write dest matrix f fresh).1 ∧
  (write dest matrix f st).1 ≠ Raise FileExistsError ∧
  if decide (held_open dest st)
  then
    write dest matrix f st = (Raise ValueError, st)
  else
    disk (write dest matrix f st).2 = disk (write dest matrix f fresh).2 ∧
    (∃ container,
       disk (write dest matrix f st).2 !! dest = Some (HDF5File container) ∧
       root_attrs container = tables.new_root_attrs "three_sources") ∧
    (∀ path, path ≠ dest →
       disk (write dest matrix f st).2 !! path = disk st !! path).
Proof.
  intros Hold fresh.
  destruct (decide (held_open dest st)) as [Hheld|Hfree].
  - assert (held_open dest fresh) as Hheld' by exact Hheld.
    by rewrite !write_held.
  - assert (¬ held_open dest fresh) as Hfree' by exact Hfree.
    destruct (write_cases matrix) as [[? ?]|[?|?]];
      [ rewrite !write_ok by done
      | rewrite !write_zerodims by done
      | rewrite !write_scalar by done ];
      cbn [fst snd disk fresh];
      (split; [done|]); (split; [done|]); (split; [by rewrite insert_delete_eq|]);
      (split; [eexists; split; [apply lookup_insert_eq|done]|]);
      intros path Hne; by rewrite lookup_insert_ne.
Qed.

(** Writing over the text file of [scenario_world], which no handle holds
    open. *)
Lemma write_truncates_existing_destination_witness :
  let fresh := {| disk := delete "in.csv" (disk scenario_world);
                  open_files := open_files scenario_world |} in
  (write "in.csv" two_by_two (float_of_Z 51200) scenario_world).1
    = (write "in.csv" two_by_two (float_of_Z 51200) fresh).1 ∧
  (write "in.csv" two_by_two (float_of_Z 51200) scenario_world).1
    ≠ Raise FileExistsError ∧
  disk (write "in.csv" two_by_two (float_of_Z 51200) scenario_world).2
    = disk (write "in.csv" two_by_two (float_of_Z 51200) fresh).2 ∧
  (∃ container,
     disk (write "in.csv" two_by_two (float_of_Z 51200) scenario_world).2 !! "in.csv"
       = Some (HDF5File container) ∧
     root_attrs container = tables.new_root_attrs "three_sources") ∧
  (∀ path, path ≠ "in.csv" →
     disk (write "in.csv" two_by_two (float_of_Z 51200) scenario_world).2 !! path
       = disk scenario_world !! path).
Proof.
  apply (write_truncates_existing_destination scenario_world "in.csv"
           (TextFile scenario_csv) two_by_two (float_of_Z 51200)).
  reflexivity.
Defined.

(** C10 as stated fails for a file the process still holds open: the first
    [write] fails after opening and leaves its handle behind; the second
    [write] to the same path is then refused and the file that exists
    there is not replaced. *)
Lemma write_keeps_held_open_destination :
  ∃ st1 container,
    write "out.h5" zero_columns (float_of_Z 51200) empty_world
      = (Raise NotImplementedError, st1) ∧
    disk st1 !! "out.h5" = Some (HDF5File container) ∧
    held_open "out.h5" st1 ∧
    write "out.h5" two_by_two (float_of_Z 51200) st1 = (Raise ValueError, st1) ∧
    disk (write "out.h5" two_by_two (float_of_Z 51200) st1).2 !! "out.h5"
      = Some (HDF5File container) ∧
    root container !! "time_data" = None.
Proof.
  eexists _, _.
  split; [by apply write_zerodims; [apply not_elem_of_nil|]|].
  split; [apply lookup_insert_eq|].
  assert (held_open "out.h5"
            {| disk := <["out.h5" := HDF5File (tables.new_file "three_sources")]>
                         (disk empty_world);
               open_files := destination "out.h5" :: open_files empty_world |})
    as Hheld by apply list_elem_of_here.
  split; [exact Hheld|].
  rewrite write_held by exact Hheld.
  split; [done|]. split; [apply lookup_insert_eq|done].
Qed.

(** ** The conversion driver *)

(** With the tags of the three formats the driver runs what the three
    conversion cells of the notebook run. *)
Lemma convert_runs_the_cells :
  convert "three_sources.csv" "delimited_text" "three_sources_from_csv.h5"
          (float_of_Z 51200) = cell_csv ∧
  convert "three_sourcesv7.mat" "legacy_binary_matrix"
          "three_sources_from_mat7.h5" (float_of_Z 51200) = cell_mat7 ∧
  convert "three_sourcesv73.mat" "hdf5_binary_matrix"
          "three_sources_from_mat73.h5" (float_of_Z 51200) = cell_mat73.
Proof. by repeat split. Qed.

(** C7: a format tag outside the three known ones makes [convert] fail with
    [UnsupportedFormat] before anything is read or written: the world, and
    with it whatever is or is not at the destination, is unchanged. *)
Theorem convert_rejects_unknown_format st source_path source_format
        destination_path f :
  source_format ≠ "delimited_text" →
  source_format ≠ "legacy_binary_matrix" →
  source_format ≠ "hdf5_binary_matrix" →
  convert source_path source_format destination_path f st
    = (Raise UnsupportedFormat, st) ∧
  disk (convert source_path source_format destination_path f st).2
    !! destination_path = disk st !! destination_path.
Proof.
  intros H1 H2 H3. unfold convert, select_adapter.
  rewrite !bool_decide_eq_false_2 by done. done.
Qed.

(** The format tag xyz. *)
Lemma convert_rejects_unknown_format_witness :
  convert "in.csv" "xyz" "out.h5" (float_of_Z 51200) scenario_world
    = (Raise UnsupportedFormat, scenario_world) ∧
  disk (convert "in.csv" "xyz" "out.h5" (float_of_Z 51200) scenario_world).2
    !! "out.h5" = disk scenario_world !! "out.h5".
Proof.
  apply (convert_rejects_unknown_format scenario_world "in.csv" "xyz" "out.h5"
           (float_of_Z 51200)); discriminate.
Defined.

(** ** The delimited-text adapter *)

Lemma first_valid_data_line fhd first_line rest :
  np.first_valid fhd = Some (first_line, rest) → field_count first_line ≠ 0.
Proof.
  induction fhd as [|line fhd IH]; simpl; [done|].
  destruct (np.split_line line) eqn:E; [done|].
  intros [= <- <-]. unfold field_count. by rewrite E.
Qed.

Lemma scan_invalid_nil nbcols i lines :
  (np.scan nbcols i lines).2 = []
  ↔ Forall (λ line, field_count line = 0 ∨ field_count line = nbcols) lines.
Proof.
  revert i. induction lines as [|line lines IH]; intros i; simpl.
  - split; [by constructor|done].
  - specialize (IH (S i)). destruct (np.scan nbcols (S i) lines) as [rows invalid].
    simpl in IH. fold (field_count line).
    destruct (Nat.eqb_spec (field_count line) 0) as [E0|E0]; simpl.
    + rewrite IH. split; [by constructor; [left|]|by inversion 1].
    + destruct (Nat.eqb_spec (field_count line) nbcols) as [E1|E1]; simpl.
      * rewrite IH. split; [by constructor; [right|]|by inversion 1].
      * split; [done|]. inversion 1 as [|? ? [?|?] ?]; done.
Qed.

Lemma genfromtxt_rows_outcome text :
  match np.genfromtxt_rows text with
  | Ok _ => ¬ ragged text
  | Raise e => e = ValueError ∧ ragged text
  end.
Proof.
  unfold np.genfromtxt_rows, ragged.
  destruct (np.first_valid _) as [[first_line rest]|] eqn:Efirst.
  - pose proof (first_valid_data_line _ _ _ Efirst) as Hdata.
    pose proof (scan_invalid_nil (length (np.split_line first_line)) 0
                  (first_line :: rest)) as Hscan.
    destruct (np.scan _ 0 (first_line :: rest)) as [rows invalid].
    simpl in Hscan. destruct invalid as [|k invalid].
    + intros (l0 & rest' & line & [= <- <-] & Hin & H0 & Hne).
      destruct Hscan as [Hscan _]. specialize (Hscan eq_refl).
      apply Forall_cons in Hscan as [_ Hscan].
      rewrite Forall_forall in Hscan. destruct (Hscan _ Hin); done.
    + split; [done|]. exists first_line, rest.
      destruct (decide (Forall (λ line, field_count line = 0
                                        ∨ field_count line = field_count first_line)
                               rest)) as [Hall|Hnot].
      * destruct Hscan as [_ Hscan]. discriminate Hscan.
        constructor; [by right|done].
      * apply not_Forall_Exists in Hnot; [|solve_decision].
        apply Exists_exists in Hnot as (line & Hin & Hbad).
        exists line. split; [done|]. split; [done|].
        split; intros E; apply Hbad; [by left|by right].
  - intros (l0 & rest' & line & [=] & _).
Qed.

Lemma genfromtxt_run fname text st :
  disk st !! fname = Some (TextFile text) →
  datacsv fname st = (np.genfromtxt_str text, st).
Proof.
  intros Hf. unfold datacsv, genfromtxt. rewrite bind_run. cbn [get_disk].
  by rewrite Hf.
Qed.

(** C4, as amended: [np.genfromtxt] raises [ValueError] exactly when some
    data line has another number of fields than the first one; in every
    other case, fields that are no numbers included, it returns an array. *)
Theorem datacsv_raises_iff_ragged st fname text :
  disk st !! fname = Some (TextFile text) →
  (ragged text → datacsv fname st = (Raise ValueError, st)) ∧
  (¬ ragged text → ∃ matrix, datacsv fname st = (Ok matrix, st)).
Proof.
  intros Hf. rewrite (genfromtxt_run _ _ _ Hf). unfold np.genfromtxt_str.
  pose proof (genfromtxt_rows_outcome text) as H.
  destruct (np.genfromtxt_rows text) as [rows|e].
  - split; [done|]. intros _. by eexists.
  - destruct H as [-> H]. split; [done|]. done.
Qed.

(** The file of [ragged_world]: two fields, then one. *)
Lemma datacsv_raises_iff_ragged_witness :
  ragged ("1.0,2.0" +:+ nl +:+ "3.0") ∧
  datacsv "in.csv" ragged_world = (Raise ValueError, ragged_world).
Proof.
  assert (ragged ("1.0,2.0" +:+ nl +:+ "3.0")) as Hragged.
  { eexists _, _, _. split; [vm_compute; reflexivity|].
    split; [apply list_elem_of_here|]. split; vm_compute; lia. }
  split; [exact Hragged|].
  apply (datacsv_raises_iff_ragged ragged_world "in.csv"
           ("1.0,2.0" +:+ nl +:+ "3.0")); [reflexivity|exact Hragged].
Defined.

(** C4 as stated fails: a field that is no number does not make the
    adapter fail; it is read as NaN. *)
Lemma datacsv_reads_invalid_field_as_nan :
  py.float_ "abc" = None ∧
  ∃ matrix,
    datacsv "in.csv" not_a_number_world = (Ok matrix, not_a_number_world) ∧
    np.shape matrix = [2; 2] ∧
    np.getitem matrix [0; 1] = Some S754_nan.
Proof.
  split; [by vm_compute|]. eexists.
  split; [vm_compute; reflexivity|]. by vm_compute.
Qed.

(** ** The three adapters on one dataset *)

Lemma datamat7_run st fname variables ans :
  disk st !! fname = Some (MatFile variables) →
  variables !! "ans" = Some ans →
  datamat7 fname st = (Ok (np.array ans np.float32), st).
Proof.
  intros Hf Hans. unfold datamat7, scipy_io.loadmat, scipy_io.getitem.
  rewrite !bind_run. cbn [get_disk]. rewrite Hf. cbn [mret M_ret].
  rewrite bind_run, Hans. done.
Qed.

Lemma length_rows_of L R C : length (rows_of L R C) = R.
Proof. unfold rows_of. by rewrite length_map, length_seq. Qed.

Lemma concat_rows_of_lookup L R C i j :
  i < R → j < C → concat (rows_of L R C) !! (i * C + j) = Some (L i j).
Proof.
  intros Hi Hj. unfold rows_of. rewrite <- flat_map_concat_map.
  rewrite (flat_map_chunk_lookup _ C) by
    (first [intros; by rewrite length_map, length_seq|done]).
  rewrite list_lookup_fmap, lookup_seq_lt by done. done.
Qed.

Lemma length_concat_rows_of L R C : length (concat (rows_of L R C)) = R * C.
Proof.
  unfold rows_of. rewrite <- flat_map_concat_map.
  rewrite (flat_map_uniform_length _ C) by (intros; by rewrite length_map, length_seq).
  by rewrite length_seq.
Qed.

Lemma squeeze_matrix dt (R C s0 s1 : nat) buf :
  R ≠ 1 → C ≠ 1 →
  np.squeeze {| np.dtype_of := dt; np.shape := [R; C];
                np.strides := [s0; s1]; np.data := buf |}
  = {| np.dtype_of := dt; np.shape := [R; C];
       np.strides := [s0; s1]; np.data := buf |}.
Proof.
  intros HR HC. unfold np.squeeze. simpl.
  apply Nat.eqb_neq in HR, HC. by rewrite HR, HC.
Qed.

Lemma genfromtxt_str_rows_of text L R C :
  2 ≤ R → 2 ≤ C →
  np.genfromtxt_rows text = Ok (rows_of L R C) →
  np.genfromtxt_str text
  = Ok {| np.dtype_of := np.float32; np.shape := [R; C]; np.strides := [C; 1];
          np.data := map round32 (concat (rows_of L R C)) |}.
Proof.
  intros HR HC Hrows. unfold np.genfromtxt_str. rewrite Hrows. f_equal.
  unfold np.array_of_rows.
  destruct (rows_of L R C) as [|row rows] eqn:E.
  { apply (f_equal length) in E. rewrite length_rows_of in E. simpl in E. lia. }
  assert (length (row :: rows) = R) as -> by (by rewrite <- E, length_rows_of).
  assert (length row = C) as ->.
  { unfold rows_of in E. destruct R as [|R]; [lia|]. simpl in E.
    injection E as <- _. by rewrite length_map, length_seq. }
  apply squeeze_matrix; lia.
Qed.

Lemma getitem_matrix_in_bounds a (R C : nat) idx :
  np.shape a = [R; C] → np.in_bounds [R; C] idx = true →
  ∃ i j, idx = [i; j] ∧ i < R ∧ j < C.
Proof.
  intros _ Hb. destruct idx as [|i [|j [|k idx]]]; simpl in Hb; try done.
  - by rewrite andb_false_r in Hb.
  - apply andb_prop in Hb as [Hi Hj]. rewrite andb_true_r in Hj.
    exists i, j. by rewrite <- !Nat.ltb_lt.
  - by rewrite !andb_false_r in Hb.
Qed.

(** Two arrays of one shape with the same elements inside the shape agree
    at every index. *)
Lemma getitem_ext a b (R C : nat) (L : nat → nat → float) :
  np.shape a = [R; C] → np.shape b = [R; C] →
  (∀ i j, i < R → j < C → np.getitem a [i; j] = Some (L i j)) →
  (∀ i j, i < R → j < C → np.getitem b [i; j] = Some (L i j)) →
  ∀ idx, np.getitem a idx = np.getitem b idx.
Proof.
  intros Ha Hb Hga Hgb idx.
  destruct (np.in_bounds [R; C] idx) eqn:Hin.
  - destruct (getitem_matrix_in_bounds a R C idx Ha Hin) as (i & j & -> & Hi & Hj).
    by rewrite Hga, Hgb.
  - unfold np.getitem. by rewrite Ha, Hb, Hin.
Qed.

(** C6: the three adapters run on the one-sample dataset [[1, 2]] of
    [one_row_world].  The two MAT adapters return a matrix of shape (1, 2);
    the text adapter returns the one-dimensional array of shape (2,),
    because [np.genfromtxt] squeezes its result and line 213 does not undo
    it: the shapes are not identical. *)
Theorem adapters_disagree_on_one_row :
  ∃ a1 a2 a3 st1 st2 st3,
    datacsv "in.csv" one_row_world = (Ok a1, st1) ∧
    datamat7 "in7.mat" one_row_world = (Ok a2, st2) ∧
    datamat73 "in73.mat" one_row_world = (Ok a3, st3) ∧
    np.shape a1 = [2] ∧ np.shape a2 = [1; 2] ∧ np.shape a3 = [1; 2] ∧
    np.shape a1 ≠ np.shape a2.
Proof.
  eexists _, _, _, _, _, _.
  split; [vm_compute; reflexivity|]. split; [vm_compute; reflexivity|].
  split; [vm_compute; reflexivity|]. by vm_compute.
Qed.

(** * Further properties of the notebook *)

(** ** More on arrays *)

Lemma flat_map_ext_seq {A} (f g : nat → list A) a n :
  (∀ i, i < n → f (a + i) = g (a + i)) →
  flat_map f (seq a n) = flat_map g (seq a n).
Proof.
  revert a. induction n as [|n IH]; intros a H; simpl; [done|].
  rewrite <- (Nat.add_0_r a) at 1 3. rewrite H by lia. rewrite Nat.add_0_r.
  f_equal. apply IH. intros i Hi. replace (S a + i) with (a + S i) by lia.
  apply H. lia.
Qed.

(** The elements in C order depend on what indexing shows only. *)
Lemma flat_from_ext sh st off buf st' off' buf' :
  (∀ idx, np.in_bounds sh idx = true →
          np.item buf (off + np.offset st idx)
          = np.item buf' (off' + np.offset st' idx)) →
  np.flat_from sh st off buf = np.flat_from sh st' off' buf'.
Proof.
  revert st off st' off'. induction sh as [|n sh IH]; intros st off st' off' H.
  - simpl. f_equal. specialize (H [] eq_refl).
    destruct st, st'; simpl in H; by rewrite !Nat.add_0_r in H.
  - cbn [np.flat_from]. apply (flat_map_ext_seq _ _ 0). intros i Hi. simpl.
    apply IH. intros idx Hidx.
    specialize (H (i :: idx)). rewrite !offset_cons in H.
    rewrite <- !Nat.add_assoc. apply H. simpl.
    apply andb_true_intro. split; [by apply Nat.ltb_lt|done].
Qed.

Lemma ravel_ext a b :
  np.shape a = np.shape b →
  (∀ idx, np.getitem a idx = np.getitem b idx) →
  np.ravel a = np.ravel b.
Proof.
  intros Hsh H. unfold np.ravel. rewrite <- Hsh. apply flat_from_ext.
  intros idx Hidx. specialize (H idx). unfold np.getitem in H.
  rewrite <- Hsh, Hidx in H. by injection H.
Qed.

Lemma shape_squeeze a :
  np.shape (np.squeeze a) = filter (λ n, n ≠ 1) (np.shape a).
Proof.
  unfold np.squeeze.
  assert (∀ sh st, (np.drop_unit_axes sh st).1 = filter (λ n, n ≠ 1) sh) as H.
  { induction sh as [|n sh IH]; intros st; simpl; [done|].
    specialize (IH (tail st)). destruct (np.drop_unit_axes sh (tail st)) as [sh' st'].
    simpl in IH. destruct (Nat.eqb_spec n 1) as [->|Hn].
    - by rewrite filter_cons_False by (by intros ?).
    - rewrite filter_cons_True by done. simpl. by rewrite IH. }
  specialize (H (np.shape a) (np.strides a)).
  by destruct (np.drop_unit_axes (np.shape a) (np.strides a)).
Qed.

Lemma ravel_squeeze a : np.ravel (np.squeeze a) = np.ravel a.
Proof.
  unfold np.squeeze, np.ravel.
  assert (∀ sh st off,
    np.flat_from (np.drop_unit_axes sh st).1 (np.drop_unit_axes sh st).2 off (np.data a)
    = np.flat_from sh st off (np.data a)) as H.
  { induction sh as [|n sh IH]; intros st off; [done|].
    cbn [np.drop_unit_axes]. specialize (IH (tail st)).
    destruct (np.drop_unit_axes sh (tail st)) as [sh' st'] eqn:E. simpl in IH.
    destruct (Nat.eqb_spec n 1) as [->|Hn]; simpl.
    - rewrite app_nil_r, Nat.add_0_r. apply IH.
    - apply (flat_map_ext_seq _ _ 0). intros i _. apply IH. }
  specialize (H (np.shape a) (np.strides a) 0).
  by destruct (np.drop_unit_axes (np.shape a) (np.strides a)).
Qed.

Lemma dtype_squeeze a : np.dtype_of (np.squeeze a) = np.dtype_of a.
Proof. unfold np.squeeze. by destruct (np.drop_unit_axes _ _). Qed.

(** ** More on [np.genfromtxt] *)

Lemma first_valid_nonblank fhd :
  match np.first_valid fhd with
  | None => nonblank fhd = []
  | Some (first_line, rest) =>
      np.split_line first_line ≠ [] ∧
      nonblank fhd = np.split_line first_line :: nonblank rest
  end.
Proof.
  unfold nonblank. induction fhd as [|line fhd IH]; simpl; [done|].
  destruct (np.split_line line) as [|v vs] eqn:E.
  - rewrite filter_cons_False by (by intros ?). exact IH.
  - rewrite filter_cons_True by done. by rewrite E.
Qed.

Lemma scan_rows nbcols i lines :
  (np.scan nbcols i lines).2 = [] →
  (np.scan nbcols i lines).1 = nonblank lines.
Proof.
  unfold nonblank. revert i. induction lines as [|line lines IH]; intros i; [done|].
  cbn [np.scan map]. specialize (IH (S i)).
  destruct (np.scan nbcols (S i) lines) as [rows invalid]. simpl in IH.
  destruct (np.split_line line) as [|v vs] eqn:E.
  - rewrite filter_cons_False by (by intros ?). exact IH.
  - rewrite filter_cons_True by done.
    change (length (v :: vs) =? 0) with false. cbn iota.
    destruct (length (v :: vs) =? nbcols); cbn [negb fst snd]; [|done].
    intros H. by rewrite IH.
Qed.

Lemma Forall_nonblank nbcols lines :
  Forall (λ line, field_count line = 0 ∨ field_count line = nbcols) lines
  ↔ Forall (λ values, length values = nbcols) (nonblank lines).
Proof.
  unfold nonblank, field_count. induction lines as [|line lines IH]; simpl.
  - split; constructor.
  - rewrite Forall_cons, IH. destruct (np.split_line line) as [|v vs] eqn:E.
    + rewrite filter_cons_False by (by intros ?). simpl. tauto.
    + rewrite filter_cons_True by done. rewrite Forall_cons. simpl.
      split; [intros [[?|?] ?]|intros [? ?]]; try done; by auto.
Qed.

(** What [np.genfromtxt] collects is decided by the fields of the data
    lines alone. *)
Lemma genfromtxt_rows_data_fields text :
  np.genfromtxt_rows text
  = if decide (uniform (data_fields text))
    then Ok (map (map np.loose_call) (data_fields text))
    else Raise ValueError.
Proof.
  unfold np.genfromtxt_rows, data_fields.
  set (fhd := np.readlines _). fold (nonblank fhd).
  pose proof (first_valid_nonblank fhd) as Hfirst.
  destruct (np.first_valid fhd) as [[first_line rest]|].
  - destruct Hfirst as [Hne ->].
    pose proof (scan_invalid_nil (length (np.split_line first_line)) 0
                  (first_line :: rest)) as Hinv.
    pose proof (scan_rows (length (np.split_line first_line)) 0
                  (first_line :: rest)) as Hrows.
    destruct (np.scan _ 0 (first_line :: rest)) as [rows invalid].
    simpl in Hinv, Hrows. rewrite Forall_nonblank in Hinv.
    assert (nonblank (first_line :: rest)
            = np.split_line first_line :: nonblank rest) as Hcons.
    { unfold nonblank. simpl. by rewrite filter_cons_True. }
    rewrite Hcons in Hinv, Hrows. rewrite Forall_cons in Hinv.
    destruct invalid as [|k invalid].
    + rewrite decide_True by (simpl; by apply Hinv). by rewrite Hrows.
    + rewrite decide_False; [done|]. simpl. intros H.
      destruct Hinv as [_ Hinv]. by discriminate Hinv.
  - rewrite Hfirst. by rewrite decide_True.
Qed.

Lemma length_concat_uniform {A} (rows : list (list A)) (C : nat) :
  Forall (λ row, length row = C) rows → length (concat rows) = length rows * C.
Proof.
  induction 1 as [|row rows Hrow _ IH]; simpl; [done|].
  rewrite length_app, Hrow, IH. done.
Qed.

Lemma ravel_array_of_rows rows dt (C : nat) :
  Forall (λ row, length row = C) rows →
  np.ravel (np.array_of_rows rows dt) = map (np.cast dt) (concat rows).
Proof.
  intros H. destruct rows as [|row rows]; [done|].
  unfold np.array_of_rows. inversion H as [|? ? Hrow Hrows]; subst.
  replace [length row; 1] with (np.c_strides [length (row :: rows); length row])
    by (simpl; by rewrite Nat.mul_1_r).
  apply ravel_contiguous. rewrite length_map.
  rewrite (length_concat_uniform _ (length row)) by done. simpl. lia.
Qed.

Lemma uniform_rows fields :
  uniform fields →
  Forall (λ row, length row = length (hd [] fields))
         (map (map np.loose_call) fields).
Proof.
  destruct fields as [|first rest]; simpl; [constructor|]. intros H.
  constructor; [by rewrite length_map|].
  rewrite Forall_map. eapply Forall_impl; [exact H|].
  intros values Hv. simpl. by rewrite length_map.
Qed.

(** What [np.genfromtxt] returns, from the fields of the data lines. *)
Lemma genfromtxt_str_data_fields text :
  np.genfromtxt_str text
  = if decide (uniform (data_fields text))
    then Ok (np.squeeze (np.array_of_rows
                           (map (map np.loose_call) (data_fields text)) np.float32))
    else Raise ValueError.
Proof.
  unfold np.genfromtxt_str. rewrite genfromtxt_rows_data_fields.
  by destruct (decide _).
Qed.

Lemma ravel_genfromtxt text a :
  np.genfromtxt_str text = Ok a →
  uniform (data_fields text) ∧
  np.dtype_of a = np.float32 ∧
  np.ravel a = map field_value (concat (data_fields text)).
Proof.
  rewrite genfromtxt_str_data_fields. destruct (decide _) as [Hu|]; [|done].
  intros [= <-]. split; [done|]. split.
  - rewrite dtype_squeeze. by destruct (data_fields text).
  - rewrite ravel_squeeze.
    rewrite (ravel_array_of_rows _ _ (length (hd [] (data_fields text))))
      by (by apply uniform_rows).
    rewrite <- concat_map, map_map. done.
Qed.

Lemma shape_genfromtxt text a :
  np.genfromtxt_str text = Ok a →
  np.shape a
  = match data_fields text with
    | [] => [0]
    | first :: _ =>
        filter (λ n, n ≠ 1) [length (data_fields text); length first]
    end.
Proof.
  rewrite genfromtxt_str_data_fields. destruct (decide _) as [Hu|]; [|done].
  intros [= <-]. rewrite shape_squeeze.
  destruct (data_fields text) as [|first rest]; [done|].
  simpl. by rewrite !length_map.
Qed.

(** X1: comments, blank lines, line ends and the spaces around a line play
    no part in what the delimited-text adapter returns: two files whose data
    lines have the same fields give the same outcome. *)
Theorem datacsv_reads_data_fields_only st fname1 fname2 text1 text2 :
  disk st !! fname1 = Some (TextFile text1) →
  disk st !! fname2 = Some (TextFile text2) →
  data_fields text1 = data_fields text2 →
  (datacsv fname1 st).1 = (datacsv fname2 st).1.
Proof.
  intros H1 H2 Hfields.
  rewrite (genfromtxt_run _ _ _ H1), (genfromtxt_run _ _ _ H2). simpl.
  by rewrite !genfromtxt_str_data_fields, Hfields.
Qed.

Lemma datacsv_reads_data_fields_only_witness :
  (datacsv "notes.csv" layout_world).1 = (datacsv "plain.csv" layout_world).1.
Proof.
  apply (datacsv_reads_data_fields_only layout_world "notes.csv" "plain.csv"
           ("# two rows" +:+ cr +:+ nl +:+ "1.0,2.0 " +:+ cr +:+ nl +:+
            cr +:+ nl +:+ "3.0,4.0 # last" +:+ nl)
           ("1.0,2.0" +:+ nl +:+ "3.0,4.0")); reflexivity.
Defined.

(** X2: whenever the delimited-text adapter returns an array, it is a
    float32 array whose elements in C order are the fields of the data lines
    in reading order, each converted by [float] (NaN when that fails) and
    rounded to single precision: no field is dropped, none is made up. *)
Theorem datacsv_keeps_every_field st fname text a st' :
  disk st !! fname = Some (TextFile text) →
  datacsv fname st = (Ok a, st') →
  st' = st ∧
  uniform (data_fields text) ∧
  np.dtype_of a = np.float32 ∧
  np.ravel a = map field_value (concat (data_fields text)) ∧
  np.size a = length (concat (data_fields text)).
Proof.
  intros Hf. rewrite (genfromtxt_run _ _ _ Hf). intros [= Hstr <-].
  destruct (ravel_genfromtxt _ _ Hstr) as (Hu & Hdt & Hravel).
  repeat split; try done.
  by rewrite <- length_ravel, Hravel, length_map.
Qed.

Lemma datacsv_keeps_every_field_witness :
  ∃ a,
    datacsv "in.csv" not_a_number_world = (Ok a, not_a_number_world) ∧
    (not_a_number_world = not_a_number_world ∧
     uniform (data_fields ("1.0,abc" +:+ nl +:+ "3.0,4.0")) ∧
     np.dtype_of a = np.float32 ∧
     np.ravel a
       = map field_value (concat (data_fields ("1.0,abc" +:+ nl +:+ "3.0,4.0"))) ∧
     np.size a = length (concat (data_fields ("1.0,abc" +:+ nl +:+ "3.0,4.0")))).
Proof.
  eexists. split; [reflexivity|].
  apply (datacsv_keeps_every_field not_a_number_world "in.csv"
           ("1.0,abc" +:+ nl +:+ "3.0,4.0")); reflexivity.
Defined.

(** X3: the shape of the array the delimited-text adapter returns is
    (lines, fields) with every axis of length one dropped, and (0,) for a
    file without data lines: one data line gives a vector, one field per
    line gives a vector, a single value gives a zero-dimensional array. *)
Theorem datacsv_shape st fname text a st' :
  disk st !! fname = Some (TextFile text) →
  datacsv fname st = (Ok a, st') →
  np.shape a
  = match data_fields text with
    | [] => [0]
    | first :: _ =>
        filter (λ n, n ≠ 1) [length (data_fields text); length first]
    end.
Proof.
  intros Hf. rewrite (genfromtxt_run _ _ _ Hf). intros [= Hstr _].
  by apply shape_genfromtxt.
Qed.

Lemma datacsv_shape_witness :
  (∃ a, datacsv "in.csv" one_column_world = (Ok a, one_column_world)
        ∧ np.shape a = [3]) ∧
  (∃ a, datacsv "in.csv" single_value_world = (Ok a, single_value_world)
        ∧ np.shape a = []).
Proof.
  split; eexists; (split; [reflexivity|]).
  - apply (datacsv_shape one_column_world "in.csv"
             ("1.0" +:+ nl +:+ "2.0" +:+ nl +:+ "3.0") _ one_column_world);
      reflexivity.
  - apply (datacsv_shape single_value_world "in.csv" "5.0" _ single_value_world);
      reflexivity.
Defined.

(** ** More on the writer *)

Lemma zerodims_not_elem sh : tables.zerodims sh = 0 ↔ 0 ∉ sh.
Proof.
  unfold tables.zerodims. induction sh as [|n sh IH]; simpl.
  - split; [intros _; apply not_elem_of_nil|done].
  - rewrite not_elem_of_cons. destruct (decide (n = 0)) as [->|Hn].
    + rewrite filter_cons_True by done. simpl. split; [done|intros [? _]; done].
    + rewrite filter_cons_False by done. rewrite IH. split; [by auto|by intros [_ ?]].
Qed.

Lemma zerodims_tail sh :
  tables.zerodims (0 :: tail sh) = 1 ↔ 0 ∉ tail sh.
Proof. rewrite zerodims_cons_0, <- zerodims_not_elem. lia. Qed.

(** X4: how [write] ends is decided by the registry of open files and the
    shape of the array alone.  It succeeds exactly when the process does
    not hold the destination open and the array has at least one axis and
    no empty axis after the first; an empty axis after the first makes
    [create_earray] raise [NotImplementedError]; [ValueError] comes from
    [open_file] for a destination held open and from appending a
    zero-dimensional array. *)
Theorem write_outcome_by_shape st dest matrix f :
  ((write dest matrix f st).1 = Ok ()
   ↔ ¬ held_open dest st ∧ np.shape matrix ≠ [] ∧ 0 ∉ tail (np.shape matrix)) ∧
  ((write dest matrix f st).1 = Raise NotImplementedError
   ↔ ¬ held_open dest st ∧ 0 ∈ tail (np.shape matrix)) ∧
  ((write dest matrix f st).1 = Raise ValueError
   ↔ held_open dest st ∨ np.shape matrix = []).
Proof.
  destruct (decide (held_open dest st)) as [Hheld|Hfree].
  { rewrite write_held by done. simpl.
    split; [split; [done|by intros [? _]]|].
    split; [split; [done|by intros [? _]]|]. split; [by left|done]. }
  destruct (write_cases matrix) as [[Hsh Hz]|[Hz|Hsh]].
  - rewrite write_ok by done. simpl. apply zerodims_tail in Hz.
    split; [done|]. split; [split; [done|by intros [_ ?]]|].
    split; [done|]. by intros [?|?].
  - rewrite write_zerodims by done. simpl. rewrite zerodims_tail in Hz.
    assert (0 ∈ tail (np.shape matrix)) as Hin.
    { destruct (decide (0 ∈ tail (np.shape matrix))); done. }
    split; [split; [done|by intros (_ & _ & ?)]|]. split; [done|].
    split; [done|]. intros [?|Hnil]; [done|].
    rewrite Hnil in Hin. by apply elem_of_nil in Hin.
  - rewrite write_scalar by done. simpl.
    split; [split; [done|by intros (_ & ? & _)]|].
    split; [|split; [intros _; by right|done]].
    split; [done|]. rewrite Hsh. simpl. by intros [_ ?%elem_of_nil].
Qed.

(** X5: a [write] that fails after it has opened the destination (the
    process did not hold it open) has already replaced what was there: the
    path then holds a container in which no dataset has an element or a
    [sample_freq], and the destination is still open. *)
Theorem write_failure_leaves_no_data st dest matrix f e :
  ¬ held_open dest st →
  (write dest matrix f st).1 = Raise e →
  ∃ container,
    disk (write dest matrix f st).2 !! dest = Some (HDF5File container) ∧
    (∀ name leaf, root container !! name = Some leaf →
       leaf_data leaf = [] ∧ v_attrs leaf !! "sample_freq" = None) ∧
    open_files (write dest matrix f st).2 = destination dest :: open_files st.
Proof.
  intros Hfree. destruct (write_cases matrix) as [[Hsh Hz]|[Hz|Hsh]].
  - by rewrite write_ok.
  - rewrite write_zerodims by done. intros _. eexists.
    split; [apply lookup_insert_eq|]. split; [|done].
    intros name leaf H. unfold tables.new_file in H. simpl in H.
    by rewrite lookup_empty in H.
  - rewrite write_scalar by done. intros _. eexists.
    split; [apply lookup_insert_eq|]. split; [|done].
    intros name leaf H. simpl in H.
    apply lookup_singleton_Some in H as [_ <-]. done.
Qed.

Lemma write_failure_leaves_no_data_witness :
  disk scenario_world !! "in.csv" = Some (TextFile scenario_csv) ∧
  ∃ container,
    disk (write "in.csv" zero_columns (float_of_Z 51200) scenario_world).2
      !! "in.csv" = Some (HDF5File container) ∧
    (∀ name leaf, root container !! name = Some leaf →
       leaf_data leaf = [] ∧ v_attrs leaf !! "sample_freq" = None) ∧
    open_files (write "in.csv" zero_columns (float_of_Z 51200) scenario_world).2
      = destination "in.csv" :: open_files scenario_world.
Proof.
  split; [reflexivity|].
  apply (write_failure_leaves_no_data scenario_world "in.csv" zero_columns
           (float_of_Z 51200) NotImplementedError);
    [apply not_elem_of_nil|reflexivity].
Defined.

(** X6: written to a destination the process does not hold open, an array
    of any rank with at least one axis and no empty axis after the first (a
    vector, a transposed view, a cube) comes back from the written
    container with its shape, its dtype and every element, and the
    attribute read back is the frequency given. *)
Theorem write_read_back_any_rank st dest matrix f :
  ¬ held_open dest st →
  np.shape matrix ≠ [] → 0 ∉ tail (np.shape matrix) →
  ∃ matrix' st',
    (write dest matrix f ≫= λ _, read_back dest) st
      = (Ok (matrix', AttrFloat f), st') ∧
    np.shape matrix' = np.shape matrix ∧
    np.dtype_of matrix' = np.dtype_of matrix ∧
    np.ravel matrix' = np.ravel matrix ∧
    (∀ idx, np.getitem matrix' idx = np.getitem matrix idx) ∧
    open_files st' = open_files st.
Proof.
  intros Hfree Hsh Hz. apply zerodims_tail in Hz. eexists _, _. split.
  { rewrite bind_run, write_ok by done.
    apply read_back_written. apply lookup_insert_eq. }
  split; [done|]. split; [done|]. split; [|split; [|done]].
  - apply ravel_contiguous. apply length_ravel.
  - intros idx. apply getitem_contiguous_ravel.
Qed.

Lemma write_read_back_any_rank_witness :
  ∃ matrix' st',
    (write "out.h5" one_dim (float_of_Z 51200) ≫= λ _, read_back "out.h5")
      empty_world = (Ok (matrix', AttrFloat (float_of_Z 51200)), st') ∧
    np.shape matrix' = np.shape one_dim ∧
    np.dtype_of matrix' = np.dtype_of one_dim ∧
    np.ravel matrix' = np.ravel one_dim ∧
    (∀ idx, np.getitem matrix' idx = np.getitem one_dim idx) ∧
    open_files st' = open_files empty_world.
Proof.
  apply (write_read_back_any_rank empty_world "out.h5" one_dim
           (float_of_Z 51200)); [apply not_elem_of_nil|done|].
  simpl. apply not_elem_of_nil.
Defined.

(** ** The conversion cells as wholes *)

Lemma data_fields_nonempty text values :
  values ∈ data_fields text → values ≠ [].
Proof. unfold data_fields. by intros [? _]%list_elem_of_filter. Qed.

(** X7: the delimited-text cell, for a file the adapter can read and a
    destination the process does not hold open: a file holding a single
    value makes the writer raise [ValueError] (the array is
    zero-dimensional) and leaves the destination open; every other file is
    converted: [time_data] gets the shape of the array returned (a vector
    for one line or one column, (0,) for no data line) and holds the fields
    in reading order. *)
Theorem csv_cell_outcome st fname dest text f a :
  disk st !! fname = Some (TextFile text) →
  np.genfromtxt_str text = Ok a →
  ¬ held_open dest st →
  let out := (datacsv fname ≫= λ matrix, write dest matrix f) st in
  match data_fields text with
  | [[_]] =>
      out.1 = Raise ValueError ∧
      open_files out.2 = destination dest :: open_files st
  | _ =>
      out.1 = Ok () ∧
      open_files out.2 = open_files st ∧
      ∃ container leaf,
        disk out.2 !! dest = Some (HDF5File container) ∧
        root container !! "time_data" = Some leaf ∧
        leaf_shape leaf = np.shape a ∧
        leaf_data leaf = map field_value (concat (data_fields text)) ∧
        v_attrs leaf !! "sample_freq" = Some (AttrFloat f)
  end.
Proof.
  intros Hf Hstr Hfree out. subst out.
  rewrite bind_run, (genfromtxt_run _ _ _ Hf), Hstr.
  pose proof (shape_genfromtxt _ _ Hstr) as Hshape.
  destruct (ravel_genfromtxt _ _ Hstr) as (_ & _ & Hravel).
  assert (np.shape a ≠ [] → 0 ∉ tail (np.shape a) →
          (write dest a f st).1 = Ok () ∧
          open_files (write dest a f st).2 = open_files st ∧
          ∃ container leaf,
            disk (write dest a f st).2 !! dest = Some (HDF5File container) ∧
            root container !! "time_data" = Some leaf ∧
            leaf_shape leaf = np.shape a ∧
            leaf_data leaf = map field_value (concat (data_fields text)) ∧
            v_attrs leaf !! "sample_freq" = Some (AttrFloat f)) as Hok.
  { intros Hsh Hz. apply zerodims_tail in Hz. rewrite write_ok by done.
    split; [done|]. split; [done|].
    exists (written a f), (time_data_of a f).
    split; [apply lookup_insert_eq|]. split; [apply lookup_singleton_eq|].
    split; [done|]. split; [exact Hravel|]. apply lookup_insert_eq. }
  pose proof (data_fields_nonempty text) as Hne.
  destruct (data_fields text) as [|first rest].
  { apply Hok; rewrite Hshape; [done|apply not_elem_of_nil]. }
  assert (first ≠ []) as Hfirst by (apply Hne; left).
  destruct first as [|v vs]; [done|].
  destruct rest as [|second rest], vs as [|v' vs].
  - rewrite write_scalar by (first [done|by rewrite Hshape]). done.
  - apply Hok; rewrite Hshape; [done|apply not_elem_of_nil].
  - apply Hok; rewrite Hshape; [done|apply not_elem_of_nil].
  - apply Hok; rewrite Hshape; [done|].
    rewrite !filter_cons_True by (simpl; lia). simpl.
    rewrite list_elem_of_singleton. lia.
Qed.

Lemma csv_cell_outcome_witness :
  (let out := (datacsv "in.csv" ≫= λ matrix, write "out.h5" matrix (float_of_Z 51200))
                single_value_world in
   out.1 = Raise ValueError ∧
   open_files out.2 = destination "out.h5" :: open_files single_value_world) ∧
  (let out := (datacsv "in.csv" ≫= λ matrix, write "out.h5" matrix (float_of_Z 51200))
                one_column_world in
   out.1 = Ok () ∧
   open_files out.2 = open_files one_column_world ∧
   ∃ container leaf,
     disk out.2 !! "out.h5" = Some (HDF5File container) ∧
     root container !! "time_data" = Some leaf ∧
     leaf_shape leaf = [3] ∧
     leaf_data leaf
       = map field_value
           (concat (data_fields ("1.0" +:+ nl +:+ "2.0" +:+ nl +:+ "3.0"))) ∧
     v_attrs leaf !! "sample_freq" = Some (AttrFloat (float_of_Z 51200))).
Proof.
  split.
  - apply (csv_cell_outcome single_value_world "in.csv" "out.h5" "5.0"
             (float_of_Z 51200)
             (np.mk_ndarray np.float32 [] [] [round32 (float_of_Z 5)]));
      [reflexivity|reflexivity|apply not_elem_of_nil].
  - apply (csv_cell_outcome one_column_world "in.csv" "out.h5"
             ("1.0" +:+ nl +:+ "2.0" +:+ nl +:+ "3.0") (float_of_Z 51200) one_dim);
      [reflexivity|reflexivity|apply not_elem_of_nil].
Defined.

(** X8: the HDF5-binary cell end to end: for a stored dataset [ans] of shape
    (C, S) with C >= 1 and a destination other than the source, neither of
    them held open by the process, the cell
    writes [time_data] with atom float32 and shape (S, C) whose element
    [i, j] is the stored element [j, i] converted to float32, with
    [sample_freq = f]; the source is untouched and still open, the
    destination is closed. *)
Theorem mat73_cell_stores_transpose st fname dest (source : h5) (ans : Leaf)
        (C S : nat) f :
  disk st !! fname = Some (HDF5File source) →
  root source !! "ans" = Some ans →
  leaf_shape ans = [C; S] →
  C ≠ 0 →
  fname ≠ dest →
  ¬ held_open fname st →
  ¬ held_open dest st →
  ∃ st' container leaf,
    (datamat73 fname ≫= λ matrix, write dest matrix f) st = (Ok (), st') ∧
    disk st' !! fname = Some (HDF5File source) ∧
    disk st' !! dest = Some (HDF5File container) ∧
    dom (root container) = {[ "time_data" ]} ∧
    root container !! "time_data" = Some leaf ∧
    atom leaf = np.float32 ∧
    leaf_shape leaf = [S; C] ∧
    (∀ i j, tables.getitem leaf [i; j] = round32 <$> tables.getitem ans [j; i]) ∧
    v_attrs leaf !! "sample_freq" = Some (AttrFloat f) ∧
    open_files st'
      = {| filename := fname; file_mode := mode_r |} :: open_files st.
Proof.
  intros Hf Hans Hsh HC Hne _ Hfree.
  set (matrix := np.T (np.array (tables.read ans) np.float32)).
  assert (np.shape matrix = [S; C]) as Hshape by (by simpl; rewrite Hsh).
  eexists _, (written matrix f), (time_data_of matrix f). split.
  { rewrite bind_run, (datamat73_run _ _ source ans) by (by rewrite ?Hsh).
    fold matrix.
    by apply (write_matrix _ _ _ _ S C); [apply not_held_open_cons|..]. }
  cbn [disk open_files].
  split; [by rewrite lookup_insert_ne|]. split; [apply lookup_insert_eq|].
  split; [apply dom_singleton_L|]. split; [apply lookup_singleton_eq|].
  split; [done|]. split; [done|]. split; [|by split; [apply lookup_insert_eq|]].
  intros i j. rewrite getitem_time_data. apply getitem_datamat73.
Qed.

Lemma mat73_cell_stores_transpose_witness :
  ∃ st' container leaf,
    (datamat73 "in73.mat" ≫= λ matrix, write "out.h5" matrix (float_of_Z 51200))
      two_rows_world = (Ok (), st') ∧
    disk st' !! "in73.mat"
      = Some (HDF5File {| matlab_header := true; root_attrs := ∅;
                          root := {[ "ans" := transposed_leaf 2 2 [1; 3; 2; 4]%Z ]} |}) ∧
    disk st' !! "out.h5" = Some (HDF5File container) ∧
    dom (root container) = {[ "time_data" ]} ∧
    root container !! "time_data" = Some leaf ∧
    atom leaf = np.float32 ∧
    leaf_shape leaf = [2; 2] ∧
    (∀ i j, tables.getitem leaf [i; j]
            = round32 <$> tables.getitem (transposed_leaf 2 2 [1; 3; 2; 4]%Z) [j; i]) ∧
    v_attrs leaf !! "sample_freq" = Some (AttrFloat (float_of_Z 51200)) ∧
    open_files st'
      = {| filename := "in73.mat"; file_mode := mode_r |} :: open_files two_rows_world.
Proof.
  apply (mat73_cell_stores_transpose two_rows_world "in73.mat" "out.h5" _
           (transposed_leaf 2 2 [1; 3; 2; 4]%Z) 2 2 (float_of_Z 51200));
    first [reflexivity|discriminate|lia|apply not_elem_of_nil].
Defined.

(** X9: the legacy-binary cell end to end, whatever the memory layout of the
    array [loadmat] returns: for a variable [ans] with at least one axis
    and no empty axis after the first and a destination, other than the
    source, that the process does not hold open, the cell writes [time_data] with atom
    float32, the shape of [ans] and, at every index, the element of [ans]
    converted to float32; the source is untouched and no file stays open. *)
Theorem mat7_cell_stores_cast st fname dest variables ans f :
  disk st !! fname = Some (MatFile variables) →
  variables !! "ans" = Some ans →
  np.shape ans ≠ [] → 0 ∉ tail (np.shape ans) →
  fname ≠ dest →
  ¬ held_open dest st →
  ∃ st' container leaf,
    (datamat7 fname ≫= λ matrix, write dest matrix f) st = (Ok (), st') ∧
    disk st' !! fname = Some (MatFile variables) ∧
    disk st' !! dest = Some (HDF5File container) ∧
    root container !! "time_data" = Some leaf ∧
    atom leaf = np.float32 ∧
    leaf_shape leaf = np.shape ans ∧
    (∀ idx, tables.getitem leaf idx = round32 <$> np.getitem ans idx) ∧
    v_attrs leaf !! "sample_freq" = Some (AttrFloat f) ∧
    open_files st' = open_files st.
Proof.
  intros Hf Hans Hsh Hz Hne Hfree. apply zerodims_tail in Hz.
  eexists _, (written (np.array ans np.float32) f),
    (time_data_of (np.array ans np.float32) f). split.
  { rewrite bind_run, (datamat7_run _ _ variables ans) by done.
    by apply write_ok. }
  cbn [disk open_files].
  split; [by rewrite lookup_insert_ne|]. split; [apply lookup_insert_eq|].
  split; [apply lookup_singleton_eq|]. split; [done|]. split; [done|].
  split; [|by split; [apply lookup_insert_eq|]].
  intros idx. rewrite getitem_time_data. apply getitem_array.
Qed.

Lemma mat7_cell_stores_cast_witness :
  ∃ st' container leaf,
    (datamat7 "in7.mat" ≫= λ matrix, write "out.h5" matrix (float_of_Z 51200))
      fortran_world = (Ok (), st') ∧
    disk st' !! "in7.mat" = Some (MatFile {[ "ans" := fortran_matrix ]}) ∧
    disk st' !! "out.h5" = Some (HDF5File container) ∧
    root container !! "time_data" = Some leaf ∧
    atom leaf = np.float32 ∧
    leaf_shape leaf = np.shape fortran_matrix ∧
    (∀ idx, tables.getitem leaf idx = round32 <$> np.getitem fortran_matrix idx) ∧
    v_attrs leaf !! "sample_freq" = Some (AttrFloat (float_of_Z 51200)) ∧
    open_files st' = open_files fortran_world.
Proof.
  apply (mat7_cell_stores_cast fortran_world "in7.mat" "out.h5"
           {[ "ans" := fortran_matrix ]} fortran_matrix (float_of_Z 51200));
    try reflexivity; try discriminate; try apply not_elem_of_nil.
  simpl. rewrite list_elem_of_singleton. lia.
Defined.

Lemma written_ext a b f :
  np.dtype_of a = np.dtype_of b → np.shape a = np.shape b →
  (∀ idx, np.getitem a idx = np.getitem b idx) →
  written a f = written b f.
Proof.
  intros Hdt Hsh Hget. unfold written, time_data_of.
  by rewrite Hdt, Hsh, (ravel_ext a b Hsh Hget).
Qed.

Lemma Forall_length_rows_of L R C :
  Forall (λ row, length row = C) (rows_of L R C).
Proof.
  unfold rows_of. rewrite Forall_map. apply Forall_forall. intros i _.
  simpl. by rewrite length_map, length_seq.
Qed.

(** A text whose fields, converted, are the rows of [L] is read as [L]. *)
Lemma genfromtxt_rows_of_fields text L R C :
  map (map np.loose_call) (data_fields text) = rows_of L R C →
  np.genfromtxt_rows text = Ok (rows_of L R C).
Proof.
  intros Hfields. rewrite genfromtxt_rows_data_fields.
  rewrite decide_True; [by rewrite Hfields|].
  pose proof (Forall_length_rows_of L R C) as Hlen.
  rewrite <- Hfields, Forall_map in Hlen.
  destruct (data_fields text) as [|first rest]; [done|].
  simpl. apply Forall_cons in Hlen as [Hfirst Hrest]. simpl in Hfirst.
  eapply Forall_impl; [exact Hrest|]. simpl. intros values Hvalues.
  rewrite length_map in Hfirst, Hvalues. congruence.
Qed.

(** X10: one dataset, three formats, one container: for a dataset of at
    least two samples and two channels given as text (the fields of its
    data lines, converted as [float] does, are the values of the dataset),
    as the variable [ans] of a MAT file and, transposed, as the dataset
    [ans] of an HDF5 file, the three conversion cells succeed and the files
    they write hold the very same container.  The process holds none of the
    files open beforehand; the HDF5-binary cell leaves its source open, so
    its destination has to be another file. *)
Theorem three_cells_write_one_container st csv mat7 mat73 out1 out2 out3
        text variables A source ans (L : nat → nat → float) (R C : nat) f :
  2 ≤ R → 2 ≤ C →
  disk st !! csv = Some (TextFile text) →
  map (map np.loose_call) (data_fields text) = rows_of L R C →
  disk st !! mat7 = Some (MatFile variables) →
  variables !! "ans" = Some A →
  np.shape A = [R; C] →
  (∀ i j, i < R → j < C → np.getitem A [i; j] = Some (L i j)) →
  disk st !! mat73 = Some (HDF5File source) →
  root source !! "ans" = Some ans →
  leaf_shape ans = [C; R] →
  (∀ i j, i < R → j < C → tables.getitem ans [j; i] = Some (L i j)) →
  mat73 ≠ out3 →
  ¬ held_open mat73 st →
  ¬ held_open out1 st → ¬ held_open out2 st → ¬ held_open out3 st →
  ∃ container st1 st2 st3,
    (datacsv csv ≫= λ matrix, write out1 matrix f) st = (Ok (), st1) ∧
    (datamat7 mat7 ≫= λ matrix, write out2 matrix f) st = (Ok (), st2) ∧
    (datamat73 mat73 ≫= λ matrix, write out3 matrix f) st = (Ok (), st3) ∧
    disk st1 !! out1 = Some (HDF5File container) ∧
    disk st2 !! out2 = Some (HDF5File container) ∧
    disk st3 !! out3 = Some (HDF5File container).
Proof.
  intros HR HC Hcsv Hfields Hmat7 HA HshA HgetA Hmat73 Hans Hshans Hgetans
    Hne _ Hfree1 Hfree2 Hfree3.
  pose proof (genfromtxt_rows_of_fields _ _ _ _ Hfields) as Hrows.
  set (a1 := {| np.dtype_of := np.float32; np.shape := [R; C];
                np.strides := [C; 1];
                np.data := map round32 (concat (rows_of L R C)) |}).
  set (a2 := np.array A np.float32).
  set (a3 := np.T (np.array (tables.read ans) np.float32)).
  assert (np.shape a3 = [R; C]) as Hsh3 by (by simpl; rewrite Hshans).
  assert (∀ i j, i < R → j < C → np.getitem a1 [i; j] = Some (round32 (L i j))) as H1.
  { intros i j Hi Hj. unfold np.getitem, a1. simpl.
    apply Nat.ltb_lt in Hi as Hi', Hj as Hj'. rewrite Hi', Hj'. simpl. f_equal.
    replace (i * C + (j * 1 + 0)) with (i * C + j) by lia.
    rewrite item_map by (rewrite length_concat_rows_of; nia).
    unfold np.item. by rewrite concat_rows_of_lookup. }
  assert (∀ i j, i < R → j < C → np.getitem a2 [i; j] = Some (round32 (L i j))) as H2.
  { intros i j Hi Hj. unfold a2. by rewrite getitem_array, HgetA. }
  assert (∀ i j, i < R → j < C → np.getitem a3 [i; j] = Some (round32 (L i j))) as H3.
  { intros i j Hi Hj. unfold a3. by rewrite getitem_datamat73, Hgetans. }
  assert (written a2 f = written a1 f) as E2.
  { apply written_ext; [done|done|].
    by apply (getitem_ext a2 a1 R C (λ i j, round32 (L i j))). }
  assert (written a3 f = written a1 f) as E3.
  { apply written_ext; [done|by rewrite Hsh3|].
    by apply (getitem_ext a3 a1 R C (λ i j, round32 (L i j))). }
  exists (written a1 f). eexists _, _, _.
  split. { rewrite bind_run, (genfromtxt_run _ _ _ Hcsv).
           rewrite (genfromtxt_str_rows_of _ L R C) by done.
           apply (write_matrix _ _ _ _ R C); [done|done|lia]. }
  split. { rewrite bind_run, (datamat7_run _ _ variables A) by done.
           apply (write_matrix _ _ _ _ R C); [done|done|lia]. }
  split. { rewrite bind_run, (datamat73_run _ _ source ans)
             by first [done|rewrite Hshans; simpl; lia].
           apply (write_matrix _ _ _ _ R C);
             [by apply not_held_open_cons|done|lia]. }
  subst a1 a2 a3. cbn [disk]. rewrite E2, E3. by rewrite !lookup_insert_eq.
Qed.

Lemma three_cells_write_one_container_witness :
  ∃ container st1 st2 st3,
    (datacsv "in.csv" ≫= λ matrix, write "csv.h5" matrix (float_of_Z 51200))
      two_rows_world = (Ok (), st1) ∧
    (datamat7 "in7.mat" ≫= λ matrix, write "mat7.h5" matrix (float_of_Z 51200))
      two_rows_world = (Ok (), st2) ∧
    (datamat73 "in73.mat" ≫= λ matrix, write "mat73.h5" matrix (float_of_Z 51200))
      two_rows_world = (Ok (), st3) ∧
    disk st1 !! "csv.h5" = Some (HDF5File container) ∧
    disk st2 !! "mat7.h5" = Some (HDF5File container) ∧
    disk st3 !! "mat73.h5" = Some (HDF5File container).
Proof.
  eapply (three_cells_write_one_container two_rows_world
            "in.csv" "in7.mat" "in73.mat" "csv.h5" "mat7.h5" "mat73.h5"
            ("1.0,2.0" +:+ nl +:+ "3.0,4.0") _ _ _ _
            (λ i j, float_of_Z (Z.of_nat (2 * i + j + 1))) 2 2);
    try lia; try reflexivity; try discriminate; try apply not_elem_of_nil.
  - intros [|[|i]] [|[|j]] Hi Hj; try lia; reflexivity.
  - intros [|[|i]] [|[|j]] Hi Hj; try lia; reflexivity.
Defined.

(** ** The adapters on any source *)






(** ** The inspection cells *)

Lemma item_drop buf n k : np.item (drop n buf) k = np.item buf (n + k).
Proof. unfold np.item. by rewrite lookup_drop. Qed.

Lemma getitem_rows_col_ok leaf stop col n0 n1 rest :
  leaf_shape leaf = n0 :: n1 :: rest → col < n1 →
  ∃ samples,
    getitem_rows_col leaf stop col = Ok samples ∧
    np.dtype_of samples = atom leaf ∧
    np.shape samples = Nat.min stop n0 :: rest ∧
    (∀ k idx, k < stop →
       np.getitem samples (k :: idx) = tables.getitem leaf (k :: col :: idx)).
Proof.
  intros Hsh Hcol. unfold getitem_rows_col. rewrite Hsh.
  apply Nat.ltb_lt in Hcol as Hcol'. rewrite Hcol'.
  eexists. split; [done|]. split; [done|]. split; [done|].
  intros k idx Hk.
  rewrite (getitem_contiguous_ravel (atom leaf)
             {| np.dtype_of := atom leaf;
                np.shape := Nat.min stop n0 :: rest;
                np.strides := n1 * np.prod rest :: np.c_strides rest;
                np.data := drop (col * np.prod rest) (leaf_data leaf) |}).
  unfold np.getitem, tables.getitem. rewrite Hsh. simpl. rewrite Hcol'. simpl.
  replace (k <? Nat.min stop n0) with (k <? n0).
  2: { destruct (Nat.ltb_spec k n0), (Nat.ltb_spec k (Nat.min stop n0)); lia. }
  destruct (k <? n0); simpl; [|done].
  destruct (np.in_bounds rest idx); [|done].
  f_equal. rewrite item_drop. f_equal. lia.
Qed.

Lemma inspect_run st fname f node :
  disk st !! fname = Some (HDF5File f) →
  root f !! "time_data" = Some node →
  inspect fname st
  = (match getitem_rows_col node 10 47 with
     | Ok samples => Ok {| shown_children := dom (root f);
                           shown_time_data := node;
                           shown_first_samples := samples;
                           shown_attrs := v_attrs node |}
     | Raise e => Raise e
     end,
     {| disk := disk st;
        open_files := {| filename := fname; file_mode := mode_r |} :: open_files st |}).
Proof.
  intros Hf Hnode. unfold inspect, tables.open_file.
  rewrite !bind_run. cbn [get_disk]. rewrite Hf, bind_run.
  cbn [tables.register mret M_ret].
  set (h := {| filename := fname; file_mode := mode_r |}).
  set (st1 := {| disk := disk st; open_files := h :: open_files st |}).
  rewrite bind_run.
  rewrite (contents_run h st1 f) by (first [apply list_elem_of_here|exact Hf]).
  rewrite bind_run.
  rewrite (get_node_run h "time_data" st1 f) by (first [apply list_elem_of_here|exact Hf]).
  rewrite Hnode, bind_run. unfold lift.
  by destruct (getitem_rows_col node 10 47).
Qed.

(** X15: the inspection cells on a container written by the writer, to a
    destination the process did not hold open, from a matrix of R rows and
    more than 47 columns show what the notebook shows
    of the sample file: [time_data] as the only child of the root, with the
    shape and dtype of the matrix; as first samples of channel 47 a vector
    of min(10, R) elements, the elements [k, 47] of the matrix; and
    [sample_freq] among the attributes.  The file is left open. *)
Theorem inspect_shows_what_was_written st dest matrix f (R C : nat) :
  ¬ held_open dest st →
  np.shape matrix = [R; C] → 47 < C →
  ∃ shown st',
    inspect dest (write dest matrix f st).2 = (Ok shown, st') ∧
    shown_children shown = {[ "time_data" ]} ∧
    leaf_shape (shown_time_data shown) = [R; C] ∧
    atom (shown_time_data shown) = np.dtype_of matrix ∧
    np.shape (shown_first_samples shown) = [Nat.min 10 R] ∧
    (∀ k, k < 10 →
       np.getitem (shown_first_samples shown) [k] = np.getitem matrix [k; 47]) ∧
    shown_attrs shown !! "sample_freq" = Some (AttrFloat f) ∧
    disk st' = disk (write dest matrix f st).2 ∧
    open_files st'
      = {| filename := dest; file_mode := mode_r |} :: open_files st.
Proof.
  intros Hfree Hsh HC. rewrite (write_matrix _ _ _ _ R C) by (first [done|lia]).
  cbn [snd].
  destruct (getitem_rows_col_ok (time_data_of matrix f) 10 47 R C [])
    as (samples & Hslice & Hdt & Hshape & Hget); [done|done|].
  eexists _, _. split.
  { rewrite (inspect_run _ _ (written matrix f) (time_data_of matrix f))
      by (first [apply lookup_insert_eq|apply lookup_singleton_eq]).
    by rewrite Hslice. }
  cbn [shown_children shown_time_data shown_first_samples shown_attrs].
  split; [apply dom_singleton_L|]. split; [done|]. split; [done|].
  split; [done|]. split; [|by split; [apply lookup_insert_eq|]].
  intros k Hk. rewrite Hget by done. apply getitem_time_data.
Qed.

Lemma inspect_shows_what_was_written_witness :
  ∃ shown st',
    inspect "out.h5" (write "out.h5" wide (float_of_Z 51200) empty_world).2
      = (Ok shown, st') ∧
    shown_children shown = {[ "time_data" ]} ∧
    leaf_shape (shown_time_data shown) = [2; 48] ∧
    atom (shown_time_data shown) = np.dtype_of wide ∧
    np.shape (shown_first_samples shown) = [Nat.min 10 2] ∧
    (∀ k, k < 10 →
       np.getitem (shown_first_samples shown) [k] = np.getitem wide [k; 47]) ∧
    shown_attrs shown !! "sample_freq" = Some (AttrFloat (float_of_Z 51200)) ∧
    disk st' = disk (write "out.h5" wide (float_of_Z 51200) empty_world).2 ∧
    open_files st'
      = {| filename := "out.h5"; file_mode := mode_r |} :: open_files empty_world.
Proof.
  apply (inspect_shows_what_was_written empty_world "out.h5" wide
           (float_of_Z 51200) 2 48); [apply not_elem_of_nil|reflexivity|lia].
Defined.

(** X16: channel 47 has to exist: on a container written, to a destination
    the process did not hold open, from a matrix with at least one and at
    most 47 columns the inspection cells raise [IndexError], and the file
    they opened stays open. *)
Theorem inspect_needs_channel_47 st dest matrix f (R C : nat) :
  ¬ held_open dest st →
  np.shape matrix = [R; C] → C ≠ 0 → C ≤ 47 →
  inspect dest (write dest matrix f st).2
  = (Raise IndexError,
     {| disk := disk (write dest matrix f st).2;
        open_files := {| filename := dest; file_mode := mode_r |} :: open_files st |}).
Proof.
  intros Hfree Hsh HC Hle. rewrite (write_matrix _ _ _ _ R C) by done. cbn [snd].
  rewrite (inspect_run _ _ (written matrix f) (time_data_of matrix f))
    by (first [apply lookup_insert_eq|apply lookup_singleton_eq]).
  unfold getitem_rows_col. cbn [time_data_of leaf_shape]. rewrite Hsh.
  destruct (Nat.ltb_spec 47 C); [lia|done].
Qed.

Lemma inspect_needs_channel_47_witness :
  inspect "out.h5" (write "out.h5" two_by_two (float_of_Z 51200) empty_world).2
  = (Raise IndexError,
     {| disk := disk (write "out.h5" two_by_two (float_of_Z 51200) empty_world).2;
        open_files := {| filename := "out.h5"; file_mode := mode_r |}
                        :: open_files empty_world |}).
Proof.
  apply (inspect_needs_channel_47 empty_world "out.h5" two_by_two
           (float_of_Z 51200) 2 2); [apply not_elem_of_nil|reflexivity|lia|lia].
Defined.

(** ** The download cell *)

Lemma for_each_urlretrieve_ok remote names st :
  Forall (served remote) names →
  ∃ st',
    for_each names (λ name, urlretrieve remote (url +:+ name) name) st
      = (Ok (), st') ∧
    open_files st' = open_files st ∧
    (∀ path, disk st' !! path
             = if decide (path ∈ names) then remote !! (url +:+ path)
               else disk st !! path).
Proof.
  intros H. revert st. induction H as [|name names [content Hname] _ IH]; intros st.
  - exists st. split; [done|]. split; [done|]. intros path.
    by rewrite decide_False by apply not_elem_of_nil.
  - cbn [for_each]. rewrite bind_run. unfold urlretrieve at 1. rewrite Hname.
    cbn [put_file].
    destruct (IH {| disk := <[name := content]> (disk st);
                    open_files := open_files st |}) as (st' & Hrun & Hopen & Hdisk).
    exists st'. split; [exact Hrun|]. split; [done|]. intros path.
    rewrite Hdisk. cbn [disk].
    destruct (decide (path ∈ names)) as [Hin|Hnin].
    + by rewrite decide_True by (by right).
    + destruct (decide (path = name)) as [->|Hne].
      * rewrite decide_True by (by left). by rewrite lookup_insert_eq.
      * rewrite decide_False by (rewrite not_elem_of_cons; done).
        by rewrite lookup_insert_ne.
Qed.

Lemma for_each_urlretrieve_missing remote before missing after st :
  Forall (served remote) before →
  remote !! (url +:+ missing) = None →
  ∃ st',
    for_each (before ++ missing :: after)
             (λ name, urlretrieve remote (url +:+ name) name) st
      = (Raise OSError, st') ∧
    open_files st' = open_files st ∧
    (∀ path, disk st' !! path
             = if decide (path ∈ before) then remote !! (url +:+ path)
               else disk st !! path).
Proof.
  intros H Hmissing. revert st.
  induction H as [|name names [content Hname] _ IH]; intros st.
  - exists st. split.
    { cbn [app for_each]. rewrite bind_run. unfold urlretrieve. by rewrite Hmissing. }
    split; [done|]. intros path. by rewrite decide_False by apply not_elem_of_nil.
  - cbn [app for_each]. rewrite bind_run. unfold urlretrieve at 1. rewrite Hname.
    cbn [put_file].
    destruct (IH {| disk := <[name := content]> (disk st);
                    open_files := open_files st |}) as (st' & Hrun & Hopen & Hdisk).
    exists st'. split; [exact Hrun|]. split; [done|]. intros path.
    rewrite Hdisk. cbn [disk].
    destruct (decide (path ∈ names)) as [Hin|Hnin].
    + by rewrite decide_True by (by right).
    + destruct (decide (path = name)) as [->|Hne].
      * rewrite decide_True by (by left). by rewrite lookup_insert_eq.
      * rewrite decide_False by (rewrite not_elem_of_cons; done).
        by rewrite lookup_insert_ne.
Qed.

(** X17: when the server holds the four sample files, the download cell
    succeeds; afterwards each of the four names holds what the server holds
    under its URL, every other path holds what it held, and no file is
    open. *)
Theorem download_fetches_the_four_files remote st :
  Forall (served remote) filenames →
  ∃ st',
    download remote st = (Ok (), st') ∧
    open_files st' = open_files st ∧
    (∀ path, disk st' !! path
             = if decide (path ∈ filenames) then remote !! (url +:+ path)
               else disk st !! path).
Proof. apply for_each_urlretrieve_ok. Qed.

Lemma download_fetches_the_four_files_witness :
  ∃ st',
    download server empty_world = (Ok (), st') ∧
    open_files st' = open_files empty_world ∧
    (∀ path, disk st' !! path
             = if decide (path ∈ filenames) then server !! (url +:+ path)
               else disk empty_world !! path).
Proof.
  apply (download_fetches_the_four_files server empty_world).
  repeat constructor; by eexists.
Defined.

(** X18: the download loop stops at the first file the server does not hold:
    it raises [OSError] (an [HTTPError]); the files listed before it are
    downloaded, every other path, the later names included, holds what it
    held. *)
Theorem download_stops_at_first_missing remote st before missing after :
  filenames = before ++ missing :: after →
  Forall (served remote) before →
  remote !! (url +:+ missing) = None →
  ∃ st',
    download remote st = (Raise OSError, st') ∧
    open_files st' = open_files st ∧
    (∀ path, disk st' !! path
             = if decide (path ∈ before) then remote !! (url +:+ path)
               else disk st !! path).
Proof.
  intros Hnames Hbefore Hmissing. unfold download. rewrite Hnames.
  by apply for_each_urlretrieve_missing.
Qed.

Lemma download_stops_at_first_missing_witness :
  ∃ st',
    download server_without_csv empty_world = (Raise OSError, st') ∧
    open_files st' = open_files empty_world ∧
    (∀ path, disk st' !! path
             = if decide (path ∈ ["three_sources.h5"])
               then server_without_csv !! (url +:+ path)
               else disk empty_world !! path).
Proof.
  apply (download_stops_at_first_missing server_without_csv empty_world
           ["three_sources.h5"] "three_sources.csv"
           ["three_sourcesv7.mat"; "three_sourcesv73.mat"]).
  - reflexivity.
  - repeat constructor. by eexists.
  - reflexivity.
Defined.
